(** * AdExFHEBiddingFHE: sealed-bid batch auction with oracle decryption

    A shallow embedding of the Solidity contract [AdExFHEBiddingFHE] and the
    properties of its batch life cycle, rate limiters, auction scan and
    decryption callback.

    Conventions of the embedding:
    - [address], [uint256] and [bytes32] values are integers ([Z]);
      Solidity 0.8 arithmetic is checked, so an addition whose result does
      not fit in 256 bits aborts with [Panic 0x11] instead of wrapping.
    - a Solidity [mapping] is a finite map read with the type's zero value
      as default; a dynamic array is a list, and an out-of-range index
      aborts with [Panic 0x32].
    - contract code runs in a state-and-error monad over the storage and
      the log of the current call. A [revert] stops the call; the
      transaction wrapper [transact] then discards every write of the call,
      which is what the EVM does.
    - the FHE library and the decryption oracle are outside the contract:
      they are an interface ([FHE.Capability]), and the request identifier
      the oracle hands out is part of the call environment. *)

From Stdlib Require Import ZArith List Bool Lia.
From Stdlib.Strings Require Import Byte.
From stdpp Require Import base option list gmap.
Import ListNotations.

Local Open Scope Z_scope.

(** ** The FHE capability *)

Module FHE.

(** The operations of [FHE.sol] the contract uses. [keccak256] is the EVM
    hash, taken over the 32-byte words of an ABI encoding. *)
Class Capability := {
  euint32 : Type;
  ebool : Type;
  isInitialized : euint32 -> bool;
  ge : euint32 -> euint32 -> ebool;
  toBool : ebool -> bool;
  toBytes32 : euint32 -> Z;
  checkSignatures : Z -> list byte -> list byte -> bool;
  keccak256 : list Z -> Z
}.

(** What the comparison means: every ciphertext encrypts an amount, and
    [ge a b] decides [amount a >= amount b]. *)
Class Sound (C : Capability) := {
  amount : euint32 -> Z;
  ge_sound : forall a b : euint32, toBool (ge a b) = (amount b <=? amount a)
}.

End FHE.

(** ** Errors, effects and the call environment *)

Inductive Error :=
  | NotOwner
  | NotProvider
  | Paused
  | CooldownActive
  | InvalidBatch
  | InvalidState
  | ReplayDetected
  | InvalidProof
  | NotInitialized
  | Panic (code : Z)      (* compiler-inserted checks: 0x11 overflow, 0x32 index *)
  | DecodeFailure.        (* abi.decode on malformed data: revert without data *)

(** The errors the contract declares, as opposed to the aborts the compiler
    inserts. *)
Definition named (e : Error) : bool :=
  match e with
  | Panic _ | DecodeFailure => false
  | _ => true
  end.

Definition PANIC_OVERFLOW : Z := 0x11.
Definition PANIC_INDEX : Z := 0x32.

(** The callback a decryption request names; the contract has one. *)
Inductive Selector := myCallback_selector.

(** Events, and the call to the decryption oracle. *)
Inductive Effect :=
  | OwnershipTransferred (oldOwner newOwner : Z)
  | ProviderAdded (provider : Z)
  | ProviderRemoved (provider : Z)
  | PausedSet (p : bool)
  | CooldownSecondsSet (n : Z)
  | BatchOpened (batchId : Z)
  | BatchClosed (batchId : Z)
  | BidSubmitted (bidder batchId : Z)
  | DecryptionRequested (requestId batchId : Z)
  | DecryptionCompleted (requestId batchId winningBidAmount winner : Z)
  | RequestDecryption (cts : list Z) (callback : Selector).

Record Env := {
  msg_sender : Z;
  block_timestamp : Z;
  this_address : Z;
  (* the identifier FHE.requestDecryption returns in this call *)
  oracle_requestId : Z
}.

Definition UINT256_MAX : Z := 2 ^ 256 - 1.

(** ** Storage *)

Record DecryptionContext := {
  batchId : Z;
  stateHash : Z;
  processed : bool
}.

Definition no_context : DecryptionContext :=
  {| batchId := 0; stateHash := 0; processed := false |}.

Section Contract.

Context `{C : FHE.Capability}.

Record Bid := {
  encryptedBidAmount : FHE.euint32;
  encryptedTargetingScore : FHE.euint32;
  bidder : Z
}.

Record Storage := {
  owner : Z;
  providers : gmap Z bool;
  paused : bool;
  cooldownSeconds : Z;
  lastSubmissionTime : gmap Z Z;
  lastDecryptionRequestTime : gmap Z Z;
  batchBids : gmap Z (list Bid);
  batchActive : gmap Z bool;
  batchClosed : gmap Z bool;
  decryptionContexts : gmap Z DecryptionContext
}.

(** Reads of the mappings, with Solidity's default values. *)
Definition providers_at (s : Storage) (a : Z) : bool :=
  default false (providers s !! a).
Definition lastSubmissionTime_at (s : Storage) (a : Z) : Z :=
  default 0 (lastSubmissionTime s !! a).
Definition lastDecryptionRequestTime_at (s : Storage) (a : Z) : Z :=
  default 0 (lastDecryptionRequestTime s !! a).
Definition batchBids_at (s : Storage) (id : Z) : list Bid :=
  default [] (batchBids s !! id).
Definition batchActive_at (s : Storage) (id : Z) : bool :=
  default false (batchActive s !! id).
Definition batchClosed_at (s : Storage) (id : Z) : bool :=
  default false (batchClosed s !! id).
Definition decryptionContexts_at (s : Storage) (id : Z) : DecryptionContext :=
  default no_context (decryptionContexts s !! id).

(** Writes, one per storage variable. *)
Definition set_owner (v : Z) (s : Storage) : Storage :=
  {| owner := v; providers := providers s; paused := paused s;
     cooldownSeconds := cooldownSeconds s;
     lastSubmissionTime := lastSubmissionTime s;
     lastDecryptionRequestTime := lastDecryptionRequestTime s;
     batchBids := batchBids s; batchActive := batchActive s;
     batchClosed := batchClosed s;
     decryptionContexts := decryptionContexts s |}.

Definition set_provider (a : Z) (v : bool) (s : Storage) : Storage :=
  {| owner := owner s; providers := <[a := v]> (providers s);
     paused := paused s; cooldownSeconds := cooldownSeconds s;
     lastSubmissionTime := lastSubmissionTime s;
     lastDecryptionRequestTime := lastDecryptionRequestTime s;
     batchBids := batchBids s; batchActive := batchActive s;
     batchClosed := batchClosed s;
     decryptionContexts := decryptionContexts s |}.

Definition set_paused (v : bool) (s : Storage) : Storage :=
  {| owner := owner s; providers := providers s; paused := v;
     cooldownSeconds := cooldownSeconds s;
     lastSubmissionTime := lastSubmissionTime s;
     lastDecryptionRequestTime := lastDecryptionRequestTime s;
     batchBids := batchBids s; batchActive := batchActive s;
     batchClosed := batchClosed s;
     decryptionContexts := decryptionContexts s |}.

Definition set_cooldownSeconds (v : Z) (s : Storage) : Storage :=
  {| owner := owner s; providers := providers s; paused := paused s;
     cooldownSeconds := v;
     lastSubmissionTime := lastSubmissionTime s;
     lastDecryptionRequestTime := lastDecryptionRequestTime s;
     batchBids := batchBids s; batchActive := batchActive s;
     batchClosed := batchClosed s;
     decryptionContexts := decryptionContexts s |}.

Definition set_lastSubmissionTime (a v : Z) (s : Storage) : Storage :=
  {| owner := owner s; providers := providers s; paused := paused s;
     cooldownSeconds := cooldownSeconds s;
     lastSubmissionTime := <[a := v]> (lastSubmissionTime s);
     lastDecryptionRequestTime := lastDecryptionRequestTime s;
     batchBids := batchBids s; batchActive := batchActive s;
     batchClosed := batchClosed s;
     decryptionContexts := decryptionContexts s |}.

Definition set_lastDecryptionRequestTime (a v : Z) (s : Storage) : Storage :=
  {| owner := owner s; providers := providers s; paused := paused s;
     cooldownSeconds := cooldownSeconds s;
     lastSubmissionTime := lastSubmissionTime s;
     lastDecryptionRequestTime := <[a := v]> (lastDecryptionRequestTime s);
     batchBids := batchBids s; batchActive := batchActive s;
     batchClosed := batchClosed s;
     decryptionContexts := decryptionContexts s |}.

Definition push_batchBids (id : Z) (b : Bid) (s : Storage) : Storage :=
  {| owner := owner s; providers := providers s; paused := paused s;
     cooldownSeconds := cooldownSeconds s;
     lastSubmissionTime := lastSubmissionTime s;
     lastDecryptionRequestTime := lastDecryptionRequestTime s;
     batchBids := <[id := batchBids_at s id ++ [b]]> (batchBids s);
     batchActive := batchActive s;
     batchClosed := batchClosed s;
     decryptionContexts := decryptionContexts s |}.

Definition set_batchActive (id : Z) (v : bool) (s : Storage) : Storage :=
  {| owner := owner s; providers := providers s; paused := paused s;
     cooldownSeconds := cooldownSeconds s;
     lastSubmissionTime := lastSubmissionTime s;
     lastDecryptionRequestTime := lastDecryptionRequestTime s;
     batchBids := batchBids s;
     batchActive := <[id := v]> (batchActive s);
     batchClosed := batchClosed s;
     decryptionContexts := decryptionContexts s |}.

Definition set_batchClosed (id : Z) (v : bool) (s : Storage) : Storage :=
  {| owner := owner s; providers := providers s; paused := paused s;
     cooldownSeconds := cooldownSeconds s;
     lastSubmissionTime := lastSubmissionTime s;
     lastDecryptionRequestTime := lastDecryptionRequestTime s;
     batchBids := batchBids s; batchActive := batchActive s;
     batchClosed := <[id := v]> (batchClosed s);
     decryptionContexts := decryptionContexts s |}.

Definition set_decryptionContext (id : Z) (c : DecryptionContext)
    (s : Storage) : Storage :=
  {| owner := owner s; providers := providers s; paused := paused s;
     cooldownSeconds := cooldownSeconds s;
     lastSubmissionTime := lastSubmissionTime s;
     lastDecryptionRequestTime := lastDecryptionRequestTime s;
     batchBids := batchBids s; batchActive := batchActive s;
     batchClosed := batchClosed s;
     decryptionContexts := <[id := c]> (decryptionContexts s) |}.

(** [decryptionContexts[id].processed = true]: one field of the slot. *)
Definition set_processed (id : Z) (s : Storage) : Storage :=
  let c := decryptionContexts_at s id in
  set_decryptionContext id
    {| batchId := batchId c; stateHash := stateHash c; processed := true |} s.

(** ** The execution monad *)

Record Machine := {
  store : Storage;
  log : list Effect
}.

Definition M (A : Type) : Type := Machine -> (Error + A) * Machine.

Definition ret {A} (a : A) : M A := fun m => (inr a, m).

Definition bind {A B} (c : M A) (k : A -> M B) : M B :=
  fun m =>
    match c m with
    | (inr a, m') => k a m'
    | (inl e, m') => (inl e, m')
    end.

Definition revert {A} (e : Error) : M A := fun m => (inl e, m).

Definition get : M Storage := fun m => (inr (store m), m).

Definition modify (f : Storage -> Storage) : M unit :=
  fun m => (inr tt, {| store := f (store m); log := log m |}).

Definition emit (e : Effect) : M unit :=
  fun m => (inr tt, {| store := store m; log := log m ++ [e] |}).

(** [if (c) revert E();] *)
Definition revert_if (c : bool) (e : Error) : M unit :=
  if c then revert e else ret tt.

End Contract.

Declare Scope contract_scope.
Delimit Scope contract_scope with contract.
Notation "'let*' x := c 'in' k" := (bind c (fun x => k))
  (at level 10, x name, c at level 100, k at level 200) : contract_scope.
Notation "c >> k" := (bind c (fun _ => k))
  (at level 100, k at level 200, right associativity) : contract_scope.

(** ** The contract *)

Section Code.

Context `{C : FHE.Capability}.

Local Open Scope contract_scope.

(** Checked [uint256] addition. *)
Definition checked_add (a b : Z) : M Z :=
  if a + b <=? UINT256_MAX then ret (a + b) else revert (Panic PANIC_OVERFLOW).

(** [arr[i]] on a dynamic array. *)
Definition array_at {A} (arr : list A) (i : nat) : M A :=
  match arr !! i with
  | Some x => ret x
  | None => revert (Panic PANIC_INDEX)
  end.

(** [abi.decode(data, (uint32))]: the first 32-byte word, big-endian, which
    must fit in 32 bits. *)
Definition word_of_bytes (bs : list byte) : Z :=
  fold_left (fun acc b => acc * 256 + Z.of_N (Byte.to_N b)) bs 0.

Definition decode_uint32 (data : list byte) : option Z :=
  if (length data <? 32)%nat then None
  else
    let w := word_of_bytes (take 32 data) in
    if w <? 2 ^ 32 then Some w else None.

Definition abi_decode_uint32 (data : list byte) : M Z :=
  match decode_uint32 data with
  | Some w => ret w
  | None => revert DecodeFailure
  end.

(** [abi.encode(cts, address(this))] as 32-byte words: the offset of the
    array, the address, then the array's length and elements. *)
Definition abi_encode_cts (cts : list Z) (this : Z) : list Z :=
  [64; this; Z.of_nat (length cts)] ++ cts.

(** *** Modifiers *)

Definition onlyOwner (env : Env) : M unit :=
  let* s := get in
  revert_if (negb (msg_sender env =? owner s)) NotOwner.

Definition onlyProvider (env : Env) : M unit :=
  let* s := get in
  revert_if (negb (providers_at s (msg_sender env))) NotProvider.

Definition whenNotPaused : M unit :=
  let* s := get in
  revert_if (paused s) Paused.

Definition submissionRateLimited (env : Env) : M unit :=
  let* s := get in
  let* ready :=
    checked_add (lastSubmissionTime_at s (msg_sender env)) (cooldownSeconds s) in
  revert_if (block_timestamp env <? ready) CooldownActive >>
  modify (set_lastSubmissionTime (msg_sender env) (block_timestamp env)).

Definition decryptionRateLimited (env : Env) : M unit :=
  let* s := get in
  let* ready :=
    checked_add (lastDecryptionRequestTime_at s (msg_sender env))
                (cooldownSeconds s) in
  revert_if (block_timestamp env <? ready) CooldownActive >>
  modify (set_lastDecryptionRequestTime (msg_sender env) (block_timestamp env)).

(** *** Constructor *)

Definition constructor (env : Env) : Storage :=
  {| owner := msg_sender env;
     providers := {[ msg_sender env := true ]};
     paused := false;
     cooldownSeconds := 10;
     lastSubmissionTime := ∅;
     lastDecryptionRequestTime := ∅;
     batchBids := ∅;
     batchActive := ∅;
     batchClosed := ∅;
     decryptionContexts := ∅ |}.

(** *** Access control *)

Definition transferOwnership (env : Env) (newOwner : Z) : M unit :=
  onlyOwner env >>
  let* s := get in
  let oldOwner := owner s in
  modify (set_owner newOwner) >>
  emit (OwnershipTransferred oldOwner newOwner).

Definition addProvider (env : Env) (provider : Z) : M unit :=
  onlyOwner env >>
  modify (set_provider provider true) >>
  emit (ProviderAdded provider).

Definition removeProvider (env : Env) (provider : Z) : M unit :=
  onlyOwner env >>
  modify (set_provider provider false) >>
  emit (ProviderRemoved provider).

Definition setPaused (env : Env) (_paused : bool) : M unit :=
  onlyOwner env >>
  modify (set_paused _paused) >>
  emit (PausedSet _paused).

Definition setCooldownSeconds (env : Env) (_cooldownSeconds : Z) : M unit :=
  onlyOwner env >>
  modify (set_cooldownSeconds _cooldownSeconds) >>
  emit (CooldownSecondsSet _cooldownSeconds).

(** *** Batches and bids *)

Definition openBatch (env : Env) (batchId : Z) : M unit :=
  onlyProvider env >>
  whenNotPaused >>
  let* s := get in
  revert_if (batchActive_at s batchId || batchClosed_at s batchId) InvalidBatch >>
  modify (set_batchActive batchId true) >>
  emit (BatchOpened batchId).

Definition closeBatch (env : Env) (batchId : Z) : M unit :=
  onlyProvider env >>
  whenNotPaused >>
  let* s := get in
  revert_if (negb (batchActive_at s batchId)) InvalidBatch >>
  modify (set_batchActive batchId false) >>
  modify (set_batchClosed batchId true) >>
  emit (BatchClosed batchId).

Definition _initIfNeeded (x : FHE.euint32) : M unit :=
  revert_if (negb (FHE.isInitialized x)) NotInitialized.

Definition submitBid (env : Env) (batchId : Z)
    (encryptedBidAmount encryptedTargetingScore : FHE.euint32) : M unit :=
  whenNotPaused >>
  submissionRateLimited env >>
  let* s := get in
  revert_if (negb (batchActive_at s batchId)) InvalidBatch >>
  _initIfNeeded encryptedBidAmount >>
  _initIfNeeded encryptedTargetingScore >>
  let newBid :=
    {| encryptedBidAmount := encryptedBidAmount;
       encryptedTargetingScore := encryptedTargetingScore;
       bidder := msg_sender env |} in
  modify (push_batchBids batchId newBid) >>
  emit (BidSubmitted (msg_sender env) batchId).

(** *** The auction scan *)

(** The body of [for (i = ...; i < numBids; i++)], with [n] iterations to
    go: the current bid replaces the running highest one when [ge] says so. *)
Fixpoint scanFrom (bids : list Bid) (n : nat) (i : nat) (highestBid : Bid)
    : M Bid :=
  match n with
  | O => ret highestBid
  | S n' =>
      let* currentBid := array_at bids i in
      let isHigher :=
        FHE.ge (encryptedBidAmount currentBid) (encryptedBidAmount highestBid) in
      scanFrom bids n' (S i)
        (if FHE.toBool isHigher then currentBid else highestBid)
  end.

(** The [else] branch shared by the request and the callback: start from
    [bids[0]] and scan the indices [1 .. length - 1]. *)
Definition scanHighest (bids : list Bid) : M Bid :=
  let* highestBid := array_at bids 0 in
  scanFrom bids (length bids - 1) 1 highestBid.

Definition _hashCiphertexts (env : Env) (cts : list Z) : Z :=
  FHE.keccak256 (abi_encode_cts cts (this_address env)).

(** *** Decryption request and callback *)

Definition requestAuctionResultDecryption (env : Env) (batchId : Z) : M unit :=
  whenNotPaused >>
  decryptionRateLimited env >>
  onlyProvider env >>
  let* s := get in
  let bids := batchBids_at s batchId in
  revert_if (negb (batchClosed_at s batchId) || (length bids =? 0)%nat)
            InvalidBatch >>
  let numBids := length bids in
  let* win :=
    (if (numBids =? 1)%nat then
       let* bid := array_at bids 0 in
       ret (encryptedBidAmount bid, bidder bid)
     else
       let* highestBid := scanHighest bids in
       ret (encryptedBidAmount highestBid, bidder highestBid)) in
  let encryptedWinningBidAmount := fst win in
  let cts := [FHE.toBytes32 encryptedWinningBidAmount] in
  let stateHash := _hashCiphertexts env cts in
  emit (RequestDecryption cts myCallback_selector) >>
  let requestId := oracle_requestId env in
  modify (set_decryptionContext requestId
            {| batchId := batchId; stateHash := stateHash;
               processed := false |}) >>
  emit (DecryptionRequested requestId batchId).

Definition myCallback (env : Env) (requestId : Z)
    (cleartexts proof : list byte) : M unit :=
  let* s := get in
  revert_if (processed (decryptionContexts_at s requestId)) ReplayDetected >>
  let batchId := batchId (decryptionContexts_at s requestId) in
  let bids := batchBids_at s batchId in
  let* encryptedWinningBidAmount :=
    (if (length bids =? 1)%nat then
       let* bid := array_at bids 0 in
       ret (encryptedBidAmount bid)
     else
       let* highestBid := scanHighest bids in
       ret (encryptedBidAmount highestBid)) in
  let currentCts := [FHE.toBytes32 encryptedWinningBidAmount] in
  let currentHash := _hashCiphertexts env currentCts in
  revert_if (negb (currentHash =? stateHash (decryptionContexts_at s requestId)))
            InvalidState >>
  revert_if (negb (FHE.checkSignatures requestId cleartexts proof))
            InvalidProof >>
  let* winningBidAmount := abi_decode_uint32 cleartexts in
  let* winner :=
    (if (length bids =? 1)%nat then
       let* bid := array_at bids 0 in
       ret (bidder bid)
     else
       let* highestBid := scanHighest bids in
       ret (bidder highestBid)) in
  modify (set_processed requestId) >>
  emit (DecryptionCompleted requestId batchId winningBidAmount winner).

(** ** Transactions *)

Inductive Op :=
  | TransferOwnership (newOwner : Z)
  | AddProvider (provider : Z)
  | RemoveProvider (provider : Z)
  | SetPaused (p : bool)
  | SetCooldownSeconds (n : Z)
  | OpenBatch (batchId : Z)
  | CloseBatch (batchId : Z)
  | SubmitBid (batchId : Z) (encBid encScore : FHE.euint32)
  | RequestAuctionResultDecryption (batchId : Z)
  | MyCallback (requestId : Z) (cleartexts proof : list byte).

Definition run (op : Op) (env : Env) : M unit :=
  match op with
  | TransferOwnership newOwner => transferOwnership env newOwner
  | AddProvider p => addProvider env p
  | RemoveProvider p => removeProvider env p
  | SetPaused p => setPaused env p
  | SetCooldownSeconds n => setCooldownSeconds env n
  | OpenBatch id => openBatch env id
  | CloseBatch id => closeBatch env id
  | SubmitBid id b sc => submitBid env id b sc
  | RequestAuctionResultDecryption id => requestAuctionResultDecryption env id
  | MyCallback rid ct pf => myCallback env rid ct pf
  end.

Inductive Outcome :=
  | Success
  | Reverted (e : Error).

Record Receipt := {
  outcome : Outcome;
  post : Storage;
  effects : list Effect
}.

(** One external call as a transaction: a call that reverts leaves the
    storage it started from and no event. *)
Definition transact (op : Op) (env : Env) (s : Storage) : Receipt :=
  match run op env {| store := s; log := [] |} with
  | (inr _, m) => {| outcome := Success; post := store m; effects := log m |}
  | (inl e, _) => {| outcome := Reverted e; post := s; effects := [] |}
  end.

End Code.

(** ** A cleartext capability

    The capability in which a handle is the amount it stands for, a proof
    is valid when it is not empty, and a polynomial checksum stands in for
    the hash. It runs the contract on concrete inputs. *)

Module Cleartext.

#[export] Instance capability : FHE.Capability := {|
  FHE.euint32 := Z;
  FHE.ebool := bool;
  FHE.isInitialized h := negb (h =? 0);
  FHE.ge a b := b <=? a;
  FHE.toBool b := b;
  FHE.toBytes32 h := h;
  FHE.checkSignatures _ _ proof := negb (length proof =? 0)%nat;
  FHE.keccak256 ws := fold_left (fun acc w => acc * 31 + w) ws 7
|}.

#[export] Instance sound : FHE.Sound capability :=
  FHE.Build_Sound capability (fun h => h) (fun a b => eq_refl).

Definition enc (v : Z) : @FHE.euint32 capability := v.

Definition bid (amount score who : Z) : Bid :=
  {| encryptedBidAmount := enc amount; encryptedTargetingScore := enc score;
     bidder := who |}.

Definition env (sender now : Z) : Env :=
  {| msg_sender := sender; block_timestamp := now;
     this_address := 4096; oracle_requestId := 0 |}.

Definition env_req (sender now rid : Z) : Env :=
  {| msg_sender := sender; block_timestamp := now;
     this_address := 4096; oracle_requestId := rid |}.

End Cleartext.

(** ** Running the monad *)

Ltac unfold_monad :=
  unfold revert_if in *; unfold bind, ret, revert, get, modify, emit in *.

Ltac reduce_run := cbv beta iota zeta; cbn [store log negb].

Section Resolver.

Context `{C : FHE.Capability}.

(** The choice made at one index of the scan. *)
Definition pick (highestBid currentBid : Bid) : Bid :=
  if FHE.toBool (FHE.ge (encryptedBidAmount currentBid)
                        (encryptedBidAmount highestBid))
  then currentBid else highestBid.

(** The scan as a fold over the bids after the first one. *)
Definition selectWinner (bids : list Bid) : option Bid :=
  match bids with
  | [] => None
  | b0 :: rest => Some (fold_left pick rest b0)
  end.

Lemma scanFrom_fold (bids : list Bid) (n i : nat) (h : Bid) (m : Machine) :
  (i + n)%nat = length bids ->
  scanFrom bids n i h m = (inr (fold_left pick (drop i bids) h), m).
Proof.
  revert i h. induction n as [|n IH]; intros i h Hlen; simpl.
  - rewrite drop_ge by lia. reflexivity.
  - destruct (lookup_lt_is_Some_2 bids i) as [x Hx]; [lia|].
    unfold bind, array_at. rewrite Hx. unfold ret at 1.
    rewrite IH by lia. rewrite (drop_S _ _ _ Hx). reflexivity.
Qed.

Lemma scanHighest_run (bids : list Bid) (m : Machine) :
  scanHighest bids m =
    match selectWinner bids with
    | Some w => (inr w, m)
    | None => (inl (Panic PANIC_INDEX), m)
    end.
Proof.
  unfold scanHighest, bind, array_at. destruct bids as [|b0 rest]; simpl.
  - reflexivity.
  - rewrite scanFrom_fold by (simpl; lia).
    simpl. rewrite drop_0. reflexivity.
Qed.

(** With one bid the [if] branch reads [bids[0]]; that is the fold, too. *)
Lemma single_bid_run (bids : list Bid) (m : Machine) :
  length bids = 1%nat ->
  array_at bids 0 m =
    match selectWinner bids with
    | Some w => (inr w, m)
    | None => (inl (Panic PANIC_INDEX), m)
    end.
Proof.
  destruct bids as [|b0 [|b1 rest]]; simpl; intros; try discriminate.
  reflexivity.
Qed.

Lemma selectWinner_elem (bids : list Bid) (w : Bid) :
  selectWinner bids = Some w -> w ∈ bids.
Proof.
  destruct bids as [|b0 rest]; simpl; [discriminate|].
  intros [= <-].
  assert (forall l h, fold_left pick l h = h \/ fold_left pick l h ∈ l) as H.
  { induction l as [|x l IH]; intros h; simpl; [by left|].
    destruct (IH (pick h x)) as [->| Hin].
    - unfold pick. destruct (FHE.toBool _); [right; left | by left].
    - right. by right. }
  destruct (H rest b0) as [->|Hin]; [left | by right].
Qed.

End Resolver.

(** ** What each entry point computes *)

Section Runs.

Context `{C : FHE.Capability}.

Local Open Scope contract_scope.

(** Both branches of the winner selection, for any projection [f] of the
    selected bid. *)
Lemma winner_branch_run {A} (f : Bid -> A) (bids : list Bid) (m : Machine) :
  (if (length bids =? 1)%nat
   then (let* bid := array_at bids 0 in ret (f bid))
   else (let* highestBid := scanHighest bids in ret (f highestBid))) m =
    match selectWinner bids with
    | Some w => (inr (f w), m)
    | None => (inl (Panic PANIC_INDEX), m)
    end.
Proof.
  destruct (length bids =? 1)%nat eqn:Hlen; unfold bind.
  - apply Nat.eqb_eq in Hlen. rewrite single_bid_run by done.
    destruct (selectWinner bids); reflexivity.
  - rewrite scanHighest_run. destruct (selectWinner bids); reflexivity.
Qed.

(** The callback, check by check. *)
Definition myCallback_result (env : Env) (requestId : Z)
    (cleartexts proof : list byte) (m : Machine) : (Error + unit) * Machine :=
  let s := store m in
  let ctx := decryptionContexts_at s requestId in
  if processed ctx then (inl ReplayDetected, m)
  else
    match selectWinner (batchBids_at s (batchId ctx)) with
    | None => (inl (Panic PANIC_INDEX), m)
    | Some w =>
        if negb (_hashCiphertexts env [FHE.toBytes32 (encryptedBidAmount w)]
                 =? stateHash ctx)
        then (inl InvalidState, m)
        else if negb (FHE.checkSignatures requestId cleartexts proof)
        then (inl InvalidProof, m)
        else
          match decode_uint32 cleartexts with
          | None => (inl DecodeFailure, m)
          | Some v =>
              (inr tt,
               {| store := set_processed requestId s;
                  log := log m ++
                    [DecryptionCompleted requestId (batchId ctx) v (bidder w)] |})
          end
    end.

Lemma myCallback_run (env : Env) (requestId : Z) (cleartexts proof : list byte)
    (m : Machine) :
  myCallback env requestId cleartexts proof m =
  myCallback_result env requestId cleartexts proof m.
Proof.
  unfold myCallback, myCallback_result.
  unfold bind at 1. unfold get at 1. cbv beta iota.
  unfold bind at 1. unfold revert_if at 1.
  destruct (processed (decryptionContexts_at (store m) requestId)); [reflexivity|].
  unfold ret at 1. cbv beta iota.
  unfold bind at 1. rewrite winner_branch_run.
  destruct (selectWinner _) as [w|] eqn:Hw; [|reflexivity].
  unfold bind at 1. unfold revert_if at 1.
  destruct (negb (_ =? _)); [reflexivity|].
  unfold ret at 1. cbv beta iota.
  unfold bind at 1. unfold revert_if at 1.
  destruct (negb (FHE.checkSignatures _ _ _)); [reflexivity|].
  unfold ret at 1. cbv beta iota.
  unfold bind at 1. unfold abi_decode_uint32.
  destruct (decode_uint32 cleartexts) as [v|]; [|reflexivity].
  unfold ret at 1. cbv beta iota.
  unfold bind at 1. rewrite winner_branch_run.
  rewrite Hw. reflexivity.
Qed.

(** The decryption request, check by check. [m1] is the machine after the
    rate limiter has written the caller's timestamp. *)
Definition request_result (env : Env) (id : Z) (m : Machine)
    : (Error + unit) * Machine :=
  let s := store m in
  let last := lastDecryptionRequestTime_at s (msg_sender env) in
  if paused s then (inl Paused, m)
  else if negb (last + cooldownSeconds s <=? UINT256_MAX)
  then (inl (Panic PANIC_OVERFLOW), m)
  else if block_timestamp env <? last + cooldownSeconds s
  then (inl CooldownActive, m)
  else
    let s1 :=
      set_lastDecryptionRequestTime (msg_sender env) (block_timestamp env) s in
    let m1 := {| store := s1; log := log m |} in
    if negb (providers_at s (msg_sender env)) then (inl NotProvider, m1)
    else if negb (batchClosed_at s id) || (length (batchBids_at s id) =? 0)%nat
    then (inl InvalidBatch, m1)
    else
      match selectWinner (batchBids_at s id) with
      | None => (inl (Panic PANIC_INDEX), m1)
      | Some w =>
          let cts := [FHE.toBytes32 (encryptedBidAmount w)] in
          (inr tt,
           {| store :=
                set_decryptionContext (oracle_requestId env)
                  {| batchId := id; stateHash := _hashCiphertexts env cts;
                     processed := false |} s1;
              log := (log m ++ [RequestDecryption cts myCallback_selector])
                     ++ [DecryptionRequested (oracle_requestId env) id] |})
      end.

Lemma request_run (env : Env) (id : Z) (m : Machine) :
  requestAuctionResultDecryption env id m = request_result env id m.
Proof.
  unfold requestAuctionResultDecryption, request_result, whenNotPaused,
    decryptionRateLimited, onlyProvider, checked_add.
  unfold_monad. reduce_run.
  destruct (paused (store m)); reduce_run; [reflexivity|].
  destruct (_ <=? UINT256_MAX); reduce_run; [|reflexivity].
  destruct (block_timestamp env <? _); reduce_run; [reflexivity|].
  change (providers_at (set_lastDecryptionRequestTime _ _ (store m)))
    with (providers_at (store m)).
  destruct (negb (providers_at (store m) (msg_sender env))); reduce_run;
    [reflexivity|].
  change (batchClosed_at (set_lastDecryptionRequestTime _ _ (store m)))
    with (batchClosed_at (store m)).
  change (batchBids_at (set_lastDecryptionRequestTime _ _ (store m)))
    with (batchBids_at (store m)).
  destruct (negb (batchClosed_at (store m) id) || _); reduce_run;
    [reflexivity|].
  match goal with
  | |- context [(if (length ?bids =? 1)%nat then _ else _) ?m1] =>
      pose proof (winner_branch_run
                    (fun b => (encryptedBidAmount b, bidder b)) bids m1) as Hw
  end.
  unfold_monad. cbv beta in Hw. rewrite Hw. clear Hw.
  destruct (selectWinner _) as [w|]; reflexivity.
Qed.

(** A bid submission, check by check. *)
Definition submitBid_result (env : Env) (id : Z) (a b : FHE.euint32)
    (m : Machine) : (Error + unit) * Machine :=
  let s := store m in
  let last := lastSubmissionTime_at s (msg_sender env) in
  if paused s then (inl Paused, m)
  else if negb (last + cooldownSeconds s <=? UINT256_MAX)
  then (inl (Panic PANIC_OVERFLOW), m)
  else if block_timestamp env <? last + cooldownSeconds s
  then (inl CooldownActive, m)
  else
    let s1 := set_lastSubmissionTime (msg_sender env) (block_timestamp env) s in
    let m1 := {| store := s1; log := log m |} in
    if negb (batchActive_at s id) then (inl InvalidBatch, m1)
    else if negb (FHE.isInitialized a) then (inl NotInitialized, m1)
    else if negb (FHE.isInitialized b) then (inl NotInitialized, m1)
    else
      (inr tt,
       {| store :=
            push_batchBids id
              {| encryptedBidAmount := a; encryptedTargetingScore := b;
                 bidder := msg_sender env |} s1;
          log := log m ++ [BidSubmitted (msg_sender env) id] |}).

Lemma submitBid_run (env : Env) (id : Z) (a b : FHE.euint32) (m : Machine) :
  submitBid env id a b m = submitBid_result env id a b m.
Proof.
  unfold submitBid, submitBid_result, whenNotPaused, submissionRateLimited,
    _initIfNeeded, checked_add.
  unfold_monad. reduce_run.
  destruct (paused (store m)); reduce_run; [reflexivity|].
  destruct (_ <=? UINT256_MAX); reduce_run; [|reflexivity].
  destruct (block_timestamp env <? _); reduce_run; [reflexivity|].
  change (batchActive_at (set_lastSubmissionTime _ _ (store m)))
    with (batchActive_at (store m)).
  destruct (negb (batchActive_at (store m) id)); reduce_run; [reflexivity|].
  destruct (negb (FHE.isInitialized a)); reduce_run; [reflexivity|].
  destruct (negb (FHE.isInitialized b)); reduce_run; reflexivity.
Qed.

End Runs.

(** ** Histories of calls *)

Section Histories.

Context `{C : FHE.Capability}.

Record Call := {
  call_op : Op;
  call_env : Env
}.

Definition step (s : Storage) (c : Call) : Storage :=
  post (transact (call_op c) (call_env c) s).

Definition run_calls (cs : list Call) (s : Storage) : Storage :=
  fold_left step cs s.

(** The states the deployed contract can be in. *)
Inductive reachable : Storage -> Prop :=
  | reachable_deployed (env : Env) : reachable (constructor env)
  | reachable_step (s : Storage) (c : Call) :
      reachable s -> reachable (step s c).

(** The oracle hands out the identifier [rid] in call [c]. *)
Definition issues (rid : Z) (c : Call) : bool :=
  match call_op c with
  | RequestAuctionResultDecryption _ => oracle_requestId (call_env c) =? rid
  | _ => false
  end.

(** Modelled from the spec: [FHE.requestDecryption] is not among the
    sources. The spec has the oracle assign an identifier to each decryption
    request, one context per request; so in a history that follows the use
    of [rid], no request is given [rid] again. *)
Definition oracle_fresh (rid : Z) (cs : list Call) : Prop :=
  Forall (fun c => issues rid c = false) cs.

(** The life cycle of a batch, read off its two flags. *)
Inductive Phase := Unopened | Active | Closed.

Definition phase (s : Storage) (id : Z) : option Phase :=
  match batchActive_at s id, batchClosed_at s id with
  | false, false => Some Unopened
  | true, false => Some Active
  | false, true => Some Closed
  | true, true => None
  end.

End Histories.

(** ** Properties *)

Section Properties.

Context `{C : FHE.Capability}.

Lemma transact_myCallback (env : Env) (s : Storage) (rid : Z)
    (ct pf : list byte) :
  transact (MyCallback rid ct pf) env s =
    match myCallback_result env rid ct pf {| store := s; log := [] |} with
    | (inr _, m) => {| outcome := Success; post := store m; effects := log m |}
    | (inl e, _) => {| outcome := Reverted e; post := s; effects := [] |}
    end.
Proof. unfold transact, run. rewrite myCallback_run. reflexivity. Qed.

Lemma transact_request (env : Env) (s : Storage) (id : Z) :
  transact (RequestAuctionResultDecryption id) env s =
    match request_result env id {| store := s; log := [] |} with
    | (inr _, m) => {| outcome := Success; post := store m; effects := log m |}
    | (inl e, _) => {| outcome := Reverted e; post := s; effects := [] |}
    end.
Proof. unfold transact, run. rewrite request_run. reflexivity. Qed.

Lemma transact_submitBid (env : Env) (s : Storage) (id : Z)
    (a b : FHE.euint32) :
  transact (SubmitBid id a b) env s =
    match submitBid_result env id a b {| store := s; log := [] |} with
    | (inr _, m) => {| outcome := Success; post := store m; effects := log m |}
    | (inl e, _) => {| outcome := Reverted e; post := s; effects := [] |}
    end.
Proof. unfold transact, run. rewrite submitBid_run. reflexivity. Qed.

(** C4. Every failure is atomic: whatever the operation and the state it
    starts from, a call that fails with an error (named or not) leaves the
    whole storage as it was and emits nothing. *)
Theorem reverted_call_changes_nothing (op : Op) (env : Env) (s : Storage)
    (e : Error) :
  outcome (transact op env s) = Reverted e ->
  post (transact op env s) = s /\ effects (transact op env s) = [].
Proof.
  unfold transact.
  destruct (run op env {| store := s; log := [] |}) as [[e'|[]] m]; simpl.
  - intros _. split; reflexivity.
  - discriminate.
Qed.

(** C10. A callback for a request identifier that has no stored context
    reads the all-zero context, so it looks at batch 0; when batch 0 has no
    bid the [else] branch indexes [batchBids[0][0]] and the call aborts with
    the out-of-bounds panic, whatever the cleartexts and the proof, before
    the state-hash and proof checks. *)
Theorem callback_without_context_panics (env : Env) (s : Storage) (rid : Z)
    (ct pf : list byte) :
  decryptionContexts s !! rid = None ->
  batchBids_at s 0 = [] ->
  batchId (decryptionContexts_at s rid) = 0 /\
  (length (batchBids_at s 0) =? 1)%nat = false /\
  scanHighest (batchBids_at s 0) {| store := s; log := [] |} =
    (inl (Panic PANIC_INDEX), {| store := s; log := [] |}) /\
  outcome (transact (MyCallback rid ct pf) env s)
    = Reverted (Panic PANIC_INDEX) /\
  named (Panic PANIC_INDEX) = false.
Proof.
  intros Hctx Hbids.
  assert (decryptionContexts_at s rid = no_context) as Hno.
  { unfold decryptionContexts_at. rewrite Hctx. reflexivity. }
  rewrite transact_myCallback. unfold myCallback_result. cbn [store log].
  rewrite Hno. cbn [processed batchId no_context]. rewrite Hbids.
  repeat split; reflexivity.
Qed.

(** C9. The callback has no pause, role or rate-limit guard. When it fails
    with a named error, the error is [ReplayDetected], [InvalidState] or
    [InvalidProof]; its result is the same whoever calls it and whenever,
    and the same whether the contract is paused or not. *)
Theorem callback_has_no_guard (env : Env) (s : Storage) (rid : Z)
    (ct pf : list byte) :
  (forall e,
     outcome (transact (MyCallback rid ct pf) env s) = Reverted e ->
     e <> Paused /\ e <> NotOwner /\ e <> NotProvider /\ e <> CooldownActive /\
     (named e = true ->
      e = ReplayDetected \/ e = InvalidState \/ e = InvalidProof)) /\
  (forall p,
     outcome (transact (MyCallback rid ct pf) env (set_paused p s)) =
     outcome (transact (MyCallback rid ct pf) env s)) /\
  (forall env',
     this_address env' = this_address env ->
     transact (MyCallback rid ct pf) env' s =
     transact (MyCallback rid ct pf) env s).
Proof.
  split; [|split].
  - intros e. rewrite transact_myCallback. unfold myCallback_result.
    cbn [store log].
    repeat case_match; simpl; intros He; simplify_eq;
      (repeat split; try discriminate; auto).
  - intros p. rewrite !transact_myCallback. unfold myCallback_result.
    cbn [store log].
    change (decryptionContexts_at (set_paused p s))
      with (decryptionContexts_at s).
    change (batchBids_at (set_paused p s)) with (batchBids_at s).
    destruct (processed _); [reflexivity|].
    destruct (selectWinner _); [|reflexivity].
    destruct (negb (_ =? _)); [reflexivity|].
    destruct (negb (FHE.checkSignatures _ _ _)); [reflexivity|].
    destruct (decode_uint32 ct); reflexivity.
  - intros env' Hthis. rewrite !transact_myCallback.
    unfold myCallback_result, _hashCiphertexts. rewrite Hthis. reflexivity.
Qed.

(** C6. For an unprocessed context whose batch has a bid to select: when
    the hash recomputed over the selected ciphertext and the contract's
    address differs from the stored one, the callback fails with
    [InvalidState], and the context is still unprocessed afterwards. *)
Theorem callback_rejects_hash_mismatch (env : Env) (s : Storage) (rid : Z)
    (ct pf : list byte) (w : Bid) :
  processed (decryptionContexts_at s rid) = false ->
  selectWinner (batchBids_at s (batchId (decryptionContexts_at s rid)))
    = Some w ->
  _hashCiphertexts env [FHE.toBytes32 (encryptedBidAmount w)]
    <> stateHash (decryptionContexts_at s rid) ->
  outcome (transact (MyCallback rid ct pf) env s) = Reverted InvalidState /\
  processed
    (decryptionContexts_at (post (transact (MyCallback rid ct pf) env s)) rid)
    = false.
Proof.
  intros Hproc Hw Hhash.
  rewrite transact_myCallback. unfold myCallback_result. cbn [store log].
  rewrite Hproc, Hw.
  destruct (_ =? _) eqn:Heq; [apply Z.eqb_eq in Heq; contradiction|].
  simpl. split; [reflexivity | exact Hproc].
Qed.

(** C3, as the code has it. A submission rejected with [InvalidBatch] has
    passed the pause and cooldown checks, and the rate limiter has written
    the call's timestamp by then; the revert undoes that write with the rest
    of the call, so the caller's [lastSubmissionTime] after the call is what
    it was before: the rejected submission does not use up the cooldown. *)
Theorem rejected_submission_restores_timestamp (env : Env) (s : Storage)
    (id : Z) (a b : FHE.euint32) :
  outcome (transact (SubmitBid id a b) env s) = Reverted InvalidBatch ->
  paused s = false /\
  lastSubmissionTime_at s (msg_sender env) + cooldownSeconds s
    <= block_timestamp env /\
  batchActive_at s id = false /\
  lastSubmissionTime_at
    (store (snd (submitBid env id a b {| store := s; log := [] |})))
    (msg_sender env) = block_timestamp env /\
  post (transact (SubmitBid id a b) env s) = s /\
  lastSubmissionTime_at (post (transact (SubmitBid id a b) env s))
    (msg_sender env) = lastSubmissionTime_at s (msg_sender env).
Proof.
  rewrite transact_submitBid, submitBid_run.
  unfold submitBid_result. cbn [store log].
  destruct (paused s); [discriminate|].
  destruct (_ <=? UINT256_MAX); simpl negb; cbv iota; [|discriminate].
  destruct (block_timestamp env <? _) eqn:Hcool; [discriminate|].
  apply Z.ltb_ge in Hcool.
  destruct (batchActive_at s id); simpl negb; cbv iota.
  - destruct (negb (FHE.isInitialized a)); [discriminate|].
    destruct (negb (FHE.isInitialized b)); discriminate.
  - intros _. cbn [snd store post].
    repeat split; try reflexivity; try assumption.
    unfold lastSubmissionTime_at, set_lastSubmissionTime.
    cbn [lastSubmissionTime]. rewrite lookup_insert_eq. reflexivity.
Qed.

(** *** The rate limiters *)

Lemma submissionRateLimited_run (env : Env) (m : Machine) :
  submissionRateLimited env m =
    let s := store m in
    let ready := lastSubmissionTime_at s (msg_sender env) + cooldownSeconds s in
    if negb (ready <=? UINT256_MAX) then (inl (Panic PANIC_OVERFLOW), m)
    else if block_timestamp env <? ready then (inl CooldownActive, m)
    else (inr tt,
          {| store := set_lastSubmissionTime (msg_sender env)
                        (block_timestamp env) s;
             log := log m |}).
Proof.
  unfold submissionRateLimited, checked_add. unfold_monad. reduce_run.
  destruct (_ <=? UINT256_MAX); reduce_run; [|reflexivity].
  destruct (block_timestamp env <? _); reflexivity.
Qed.

Lemma decryptionRateLimited_run (env : Env) (m : Machine) :
  decryptionRateLimited env m =
    let s := store m in
    let ready :=
      lastDecryptionRequestTime_at s (msg_sender env) + cooldownSeconds s in
    if negb (ready <=? UINT256_MAX) then (inl (Panic PANIC_OVERFLOW), m)
    else if block_timestamp env <? ready then (inl CooldownActive, m)
    else (inr tt,
          {| store := set_lastDecryptionRequestTime (msg_sender env)
                        (block_timestamp env) s;
             log := log m |}).
Proof.
  unfold decryptionRateLimited, checked_add. unfold_monad. reduce_run.
  destruct (_ <=? UINT256_MAX); reduce_run; [|reflexivity].
  destruct (block_timestamp env <? _); reflexivity.
Qed.

(** C7, as the code has it. On a contract that is not paused, and when
    [last + cooldownSeconds] fits in a [uint256]: a rate-limited action
    attempted strictly before [last + cooldownSeconds] fails with
    [CooldownActive]; at [last + cooldownSeconds] or later the limiter lets
    the call through and records its timestamp. When the sum does not fit,
    the checked addition aborts the call with the overflow panic. Each
    limiter reads and writes its own timestamp only. *)
Theorem rate_limit_boundary (env : Env) (s : Storage) :
  let cd := cooldownSeconds s in
  let lastS := lastSubmissionTime_at s (msg_sender env) in
  let lastD := lastDecryptionRequestTime_at s (msg_sender env) in
  let m := {| store := s; log := [] |} in
  paused s = false ->
  (lastS + cd <= UINT256_MAX ->
     (block_timestamp env < lastS + cd ->
        forall id a b,
          outcome (transact (SubmitBid id a b) env s) = Reverted CooldownActive)
     /\ (lastS + cd <= block_timestamp env ->
          submissionRateLimited env m =
            (inr tt,
             {| store := set_lastSubmissionTime (msg_sender env)
                           (block_timestamp env) s;
                log := [] |})
          /\ forall id a b,
               outcome (transact (SubmitBid id a b) env s)
                 <> Reverted CooldownActive)) /\
  (lastD + cd <= UINT256_MAX ->
     (block_timestamp env < lastD + cd ->
        forall id,
          outcome (transact (RequestAuctionResultDecryption id) env s)
            = Reverted CooldownActive)
     /\ (lastD + cd <= block_timestamp env ->
          decryptionRateLimited env m =
            (inr tt,
             {| store := set_lastDecryptionRequestTime (msg_sender env)
                           (block_timestamp env) s;
                log := [] |})
          /\ forall id,
               outcome (transact (RequestAuctionResultDecryption id) env s)
                 <> Reverted CooldownActive)) /\
  (UINT256_MAX < lastS + cd ->
     forall id a b,
       outcome (transact (SubmitBid id a b) env s)
         = Reverted (Panic PANIC_OVERFLOW)) /\
  (UINT256_MAX < lastD + cd ->
     forall id,
       outcome (transact (RequestAuctionResultDecryption id) env s)
         = Reverted (Panic PANIC_OVERFLOW)) /\
  (forall a v,
     fst (submissionRateLimited env
            {| store := set_lastDecryptionRequestTime a v s; log := [] |})
     = fst (submissionRateLimited env m)) /\
  (forall a v,
     fst (decryptionRateLimited env
            {| store := set_lastSubmissionTime a v s; log := [] |})
     = fst (decryptionRateLimited env m)) /\
  (forall id a b,
     lastDecryptionRequestTime (post (transact (SubmitBid id a b) env s))
     = lastDecryptionRequestTime s) /\
  (forall id,
     lastSubmissionTime
       (post (transact (RequestAuctionResultDecryption id) env s))
     = lastSubmissionTime s).
Proof.
  intros cd lastS lastD m Hp. subst cd lastS lastD m.
  repeat apply conj.
  - intros Hfit. split.
    + intros Hlt id a b. rewrite transact_submitBid.
      unfold submitBid_result. cbn [store log]. rewrite Hp.
      apply Z.leb_le in Hfit. rewrite Hfit. simpl negb. cbv iota.
      apply Z.ltb_lt in Hlt. rewrite Hlt. reflexivity.
    + intros Hge. apply Z.leb_le in Hfit. apply Z.ltb_ge in Hge. split.
      * rewrite submissionRateLimited_run. cbn [store log].
        rewrite Hfit, Hge. reflexivity.
      * intros id a b. rewrite transact_submitBid.
        unfold submitBid_result. cbn [store log]. rewrite Hp, Hfit, Hge.
        simpl negb. cbv iota.
        repeat case_match; simplify_eq; simpl; discriminate.
  - intros Hfit. split.
    + intros Hlt id. rewrite transact_request.
      unfold request_result. cbn [store log]. rewrite Hp.
      apply Z.leb_le in Hfit. rewrite Hfit. simpl negb. cbv iota.
      apply Z.ltb_lt in Hlt. rewrite Hlt. reflexivity.
    + intros Hge. apply Z.leb_le in Hfit. apply Z.ltb_ge in Hge. split.
      * rewrite decryptionRateLimited_run. cbn [store log].
        rewrite Hfit, Hge. reflexivity.
      * intros id. rewrite transact_request.
        unfold request_result. cbn [store log]. rewrite Hp, Hfit, Hge.
        simpl negb. cbv iota.
        repeat case_match; simplify_eq; simpl; discriminate.
  - intros Hover id a b. rewrite transact_submitBid.
    unfold submitBid_result. cbn [store log]. rewrite Hp.
    apply Z.leb_gt in Hover. rewrite Hover. reflexivity.
  - intros Hover id. rewrite transact_request.
    unfold request_result. cbn [store log]. rewrite Hp.
    apply Z.leb_gt in Hover. rewrite Hover. reflexivity.
  - intros a v. rewrite !submissionRateLimited_run. cbn [store log].
    change (lastSubmissionTime_at (set_lastDecryptionRequestTime a v s))
      with (lastSubmissionTime_at s).
    change (cooldownSeconds (set_lastDecryptionRequestTime a v s))
      with (cooldownSeconds s).
    repeat case_match; reflexivity.
  - intros a v. rewrite !decryptionRateLimited_run. cbn [store log].
    change (lastDecryptionRequestTime_at (set_lastSubmissionTime a v s))
      with (lastDecryptionRequestTime_at s).
    change (cooldownSeconds (set_lastSubmissionTime a v s))
      with (cooldownSeconds s).
    repeat case_match; reflexivity.
  - intros id a b. rewrite transact_submitBid.
    unfold submitBid_result. cbn [store log].
    repeat case_match; simplify_eq; reflexivity.
  - intros id. rewrite transact_request.
    unfold request_result. cbn [store log].
    repeat case_match; simplify_eq; reflexivity.
Qed.

(** *** The batch life cycle *)

Ltac run_entry :=
  unfold transact, run, transferOwnership, addProvider, removeProvider,
    setPaused, setCooldownSeconds, openBatch, closeBatch, onlyOwner,
    onlyProvider, whenNotPaused;
  unfold_monad; reduce_run;
  repeat match goal with
         | |- context [if ?c then _ else _] => destruct c eqn:?; reduce_run
         end.

(** What a call does to the two batch flags. *)
Lemma flags_after (op : Op) (env : Env) (s : Storage) :
  let r := transact op env s in
  (batchActive (post r) = batchActive s /\
   batchClosed (post r) = batchClosed s) \/
  (exists id,
     op = OpenBatch id /\ outcome r = Success /\
     batchActive_at s id = false /\ batchClosed_at s id = false /\
     batchActive (post r) = <[id := true]> (batchActive s) /\
     batchClosed (post r) = batchClosed s) \/
  (exists id,
     op = CloseBatch id /\ outcome r = Success /\
     batchActive_at s id = true /\
     batchActive (post r) = <[id := false]> (batchActive s) /\
     batchClosed (post r) = <[id := true]> (batchClosed s)).
Proof.
  destruct op; cbv zeta.
  1-5: left; run_entry; split; reflexivity.
  - run_entry; try (left; split; reflexivity).
    right; left. exists batchId0.
    apply orb_false_elim in Heqb1 as [Ha Hc].
    repeat split; assumption.
  - run_entry; try (left; split; reflexivity).
    right; right. exists batchId0.
    apply negb_false_iff in Heqb1.
    repeat split; assumption.
  - left. rewrite transact_submitBid. unfold submitBid_result.
    cbn [store log]. repeat case_match; simplify_eq; split; reflexivity.
  - left. rewrite transact_request. unfold request_result.
    cbn [store log]. repeat case_match; simplify_eq; split; reflexivity.
  - left. rewrite transact_myCallback. unfold myCallback_result.
    cbn [store log]. repeat case_match; simplify_eq; split; reflexivity.
Qed.

Definition flags_consistent (s : Storage) : Prop :=
  forall id, batchActive_at s id && batchClosed_at s id = false.

Lemma flags_consistent_step (s : Storage) (c : Call) :
  flags_consistent s -> flags_consistent (step s c).
Proof.
  intros Hs id. unfold step.
  destruct (flags_after (call_op c) (call_env c) s)
    as [[Ha Hc] | [(i & _ & _ & Hia & Hic & Ha & Hc)
                  | (i & _ & _ & Hia & Ha & Hc)]];
    unfold batchActive_at, batchClosed_at in *; rewrite Ha, Hc.
  - apply Hs.
  - destruct (decide (i = id)) as [->|Hne].
    + rewrite lookup_insert_eq, Hic. reflexivity.
    + rewrite lookup_insert_ne by done. apply Hs.
  - destruct (decide (i = id)) as [->|Hne].
    + rewrite !lookup_insert_eq. reflexivity.
    + rewrite !lookup_insert_ne by done. apply Hs.
Qed.

Lemma reachable_flags_consistent (s : Storage) :
  reachable s -> flags_consistent s.
Proof.
  induction 1 as [env | s c _ IH].
  - intros id. reflexivity.
  - by apply flags_consistent_step.
Qed.

Lemma phase_of_flags (s s' : Storage) (id : Z) :
  batchActive s' = batchActive s -> batchClosed s' = batchClosed s ->
  phase s' id = phase s id.
Proof.
  unfold phase, batchActive_at, batchClosed_at. by intros -> ->.
Qed.

(** C5. In every state the contract can reach, each batch is unopened,
    active or closed, never active and closed at once. A call leaves the
    phase of a batch as it is, except that a successful [openBatch] takes
    the batch from unopened to active and a successful [closeBatch] from
    active to closed. [openBatch] on a batch that is active or closed never
    succeeds: it changes nothing, and once its [onlyProvider] and
    [whenNotPaused] modifiers have passed the error is [InvalidBatch]. *)
Theorem batch_life_cycle (s : Storage) :
  reachable s ->
  (forall id, exists p, phase s id = Some p) /\
  (forall op env id,
     let r := transact op env s in
     phase (post r) id = phase s id \/
     (op = OpenBatch id /\ outcome r = Success /\
      phase s id = Some Unopened /\ phase (post r) id = Some Active) \/
     (op = CloseBatch id /\ outcome r = Success /\
      phase s id = Some Active /\ phase (post r) id = Some Closed)) /\
  (forall env id,
     phase s id = Some Active \/ phase s id = Some Closed ->
     let r := transact (OpenBatch id) env s in
     outcome r <> Success /\ post r = s /\
     (providers_at s (msg_sender env) = true -> paused s = false ->
      outcome r = Reverted InvalidBatch)).
Proof.
  intros Hreach.
  pose proof (reachable_flags_consistent s Hreach) as Hcons.
  split; [|split].
  - intros id. specialize (Hcons id). unfold phase.
    destruct (batchActive_at s id), (batchClosed_at s id);
      try discriminate; eauto.
  - intros op env id r. subst r.
    destruct (flags_after op env s)
      as [[Ha Hc] | [(i & Hop & Hok & Hia & Hic & Ha & Hc)
                    | (i & Hop & Hok & Hia & Ha & Hc)]].
    + left. by apply phase_of_flags.
    + destruct (decide (i = id)) as [->|Hne].
      * right; left. repeat split; try assumption.
        -- unfold phase. by rewrite Hia, Hic.
        -- unfold phase, batchActive_at, batchClosed_at in *.
           rewrite Ha, Hc, lookup_insert_eq, Hic. reflexivity.
      * left. unfold phase, batchActive_at, batchClosed_at.
        rewrite Ha, Hc, lookup_insert_ne by done. reflexivity.
    + destruct (decide (i = id)) as [->|Hne].
      * right; right. repeat split; try assumption.
        -- specialize (Hcons id). unfold phase. rewrite Hia in *.
           simpl in Hcons. by rewrite Hcons.
        -- unfold phase, batchActive_at, batchClosed_at.
           rewrite Ha, Hc, !lookup_insert_eq. reflexivity.
      * left. unfold phase, batchActive_at, batchClosed_at.
        rewrite Ha, Hc, !lookup_insert_ne by done. reflexivity.
  - intros env id Hph r. subst r.
    assert (batchActive_at s id || batchClosed_at s id = true) as Hflag.
    { unfold phase in Hph.
      destruct (batchActive_at s id), (batchClosed_at s id);
        destruct Hph; try discriminate; reflexivity. }
    run_entry; try congruence; simpl.
    + repeat split; try discriminate.
      intros Hprov. rewrite Hprov in *. discriminate.
    + repeat split; discriminate.
    + repeat split; discriminate.
Qed.

(** *** Replay protection *)

(** What a call does to the decryption contexts. *)
Lemma contexts_after (op : Op) (env : Env) (s : Storage) :
  let r := transact op env s in
  decryptionContexts (post r) = decryptionContexts s \/
  (exists id ctx,
     op = RequestAuctionResultDecryption id /\
     decryptionContexts (post r)
       = <[oracle_requestId env := ctx]> (decryptionContexts s)) \/
  (exists rid ct pf,
     op = MyCallback rid ct pf /\ outcome r = Success /\
     processed (decryptionContexts_at s rid) = false /\
     post r = set_processed rid s).
Proof.
  destruct op; cbv zeta.
  1-7: left; run_entry; reflexivity.
  - left. rewrite transact_submitBid. unfold submitBid_result.
    cbn [store log]. repeat case_match; simplify_eq; reflexivity.
  - rewrite transact_request. unfold request_result. cbn [store log].
    repeat case_match; simplify_eq; try (left; reflexivity).
    right; left. eexists _, _. split; reflexivity.
  - rewrite transact_myCallback. unfold myCallback_result. cbn [store log].
    repeat case_match; simplify_eq; try (left; reflexivity).
    right; right. eexists _, _, _. repeat split. assumption.
Qed.

Lemma processed_set_processed (s : Storage) (rid rid' : Z) :
  processed (decryptionContexts_at s rid) = true ->
  processed (decryptionContexts_at (set_processed rid' s) rid) = true.
Proof.
  intros Hp. unfold set_processed, set_decryptionContext, decryptionContexts_at.
  cbn [decryptionContexts].
  destruct (decide (rid' = rid)) as [->|Hne].
  - rewrite lookup_insert_eq. reflexivity.
  - rewrite lookup_insert_ne by done. exact Hp.
Qed.

(** A processed context stays processed through any call in which the
    oracle does not hand out its identifier again. *)
Lemma processed_step (s : Storage) (c : Call) (rid : Z) :
  issues rid c = false ->
  processed (decryptionContexts_at s rid) = true ->
  processed (decryptionContexts_at (step s c) rid) = true.
Proof.
  intros Hfresh Hp. unfold step.
  destruct (contexts_after (call_op c) (call_env c) s)
    as [Hsame | [(id & ctx & Hop & Hctx) | (r & ct & pf & _ & _ & _ & Hpost)]].
  - unfold decryptionContexts_at in *. by rewrite Hsame.
  - unfold issues in Hfresh. rewrite Hop in Hfresh.
    apply Z.eqb_neq in Hfresh.
    unfold decryptionContexts_at in *.
    rewrite Hctx, lookup_insert_ne by done. exact Hp.
  - rewrite Hpost. by apply processed_set_processed.
Qed.

Lemma processed_run_calls (cs : list Call) (s : Storage) (rid : Z) :
  oracle_fresh rid cs ->
  processed (decryptionContexts_at s rid) = true ->
  processed (decryptionContexts_at (run_calls cs s) rid) = true.
Proof.
  intros Hfresh. revert s.
  induction Hfresh as [|c cs Hc _ IH]; intros s Hp; simpl; [exact Hp|].
  apply IH. by apply processed_step.
Qed.

(** C2. Once a callback for a request identifier has succeeded, the
    context was unprocessed before and is processed after; through every
    later history of calls (in which the oracle does not issue that
    identifier a second time) the flag stays [true], and every callback for
    the identifier fails with [ReplayDetected], whatever caller, cleartexts
    and proof it comes with. So the flag goes from [false] to [true] at most
    once. *)
Theorem callback_runs_at_most_once (env : Env) (s : Storage) (rid : Z)
    (ct pf : list byte) :
  outcome (transact (MyCallback rid ct pf) env s) = Success ->
  let s' := post (transact (MyCallback rid ct pf) env s) in
  processed (decryptionContexts_at s rid) = false /\
  processed (decryptionContexts_at s' rid) = true /\
  forall cs : list Call,
    oracle_fresh rid cs ->
    let s'' := run_calls cs s' in
    processed (decryptionContexts_at s'' rid) = true /\
    forall env' ct' pf',
      outcome (transact (MyCallback rid ct' pf') env' s'')
        = Reverted ReplayDetected /\
      post (transact (MyCallback rid ct' pf') env' s'') = s''.
Proof.
  intros Hok s'.
  assert (processed (decryptionContexts_at s rid) = false /\
          s' = set_processed rid s) as [Hbefore Hs'].
  { subst s'. revert Hok. rewrite transact_myCallback.
    unfold myCallback_result. cbn [store log].
    repeat case_match; simplify_eq; simpl; try discriminate.
    intros _. split; reflexivity. }
  assert (processed (decryptionContexts_at s' rid) = true) as Hafter.
  { rewrite Hs'. unfold set_processed, set_decryptionContext,
      decryptionContexts_at. cbn [decryptionContexts].
    rewrite lookup_insert_eq. reflexivity. }
  split; [exact Hbefore|]. split; [exact Hafter|].
  intros cs Hfresh s''.
  pose proof (processed_run_calls cs s' rid Hfresh Hafter) as Hlater.
  change (run_calls cs s') with s'' in Hlater.
  split; [exact Hlater|].
  intros env' ct' pf'. rewrite transact_myCallback.
  unfold myCallback_result. cbn [store log]. rewrite Hlater.
  split; reflexivity.
Qed.

(** *** The decryption request *)

Lemma selection_run (bids : list Bid) (m : Machine) (w : Bid) :
  selectWinner bids = Some w ->
  (if (length bids =? 1)%nat then array_at bids 0 else scanHighest bids) m
    = (inr w, m).
Proof.
  intros Hw. destruct (length bids =? 1)%nat eqn:Hlen.
  - apply Nat.eqb_eq in Hlen. rewrite single_bid_run by done. by rewrite Hw.
  - rewrite scanHighest_run. by rewrite Hw.
Qed.

(** C8. A decryption request never succeeds unless the batch is closed and
    has a bid, and once the modifiers have passed the error is
    [InvalidBatch]. When the request succeeds, the list that is hashed and
    handed to the oracle has exactly one element, the encrypted amount of
    the bid the selection returns: no targeting score, no other bid. *)
Theorem request_decrypts_only_the_winner (env : Env) (s : Storage) (id : Z) :
  let r := transact (RequestAuctionResultDecryption id) env s in
  let bids := batchBids_at s id in
  let ready :=
    lastDecryptionRequestTime_at s (msg_sender env) + cooldownSeconds s in
  (batchClosed_at s id = false \/ bids = [] ->
     outcome r <> Success /\
     (paused s = false -> ready <= UINT256_MAX ->
      ready <= block_timestamp env ->
      providers_at s (msg_sender env) = true ->
      outcome r = Reverted InvalidBatch)) /\
  (outcome r = Success ->
     batchClosed_at s id = true /\ bids <> [] /\
     exists w : Bid,
       w ∈ bids /\
       (forall m,
          (if (length bids =? 1)%nat
           then array_at bids 0 else scanHighest bids) m = (inr w, m)) /\
       let cts := [FHE.toBytes32 (encryptedBidAmount w)] in
       length cts = 1%nat /\
       effects r =
         [RequestDecryption cts myCallback_selector;
          DecryptionRequested (oracle_requestId env) id] /\
       decryptionContexts_at (post r) (oracle_requestId env) =
         {| batchId := id; stateHash := _hashCiphertexts env cts;
            processed := false |}).
Proof.
  intros r bids ready. subst r bids ready.
  rewrite transact_request. unfold request_result. cbn [store log].
  split.
  - intros Hbad.
    assert (negb (batchClosed_at s id)
            || (length (batchBids_at s id) =? 0)%nat = true) as Hcheck.
    { destruct Hbad as [-> | ->]; [reflexivity|]. apply orb_true_r. }
    rewrite Hcheck. split.
    + repeat case_match; simplify_eq; simpl; discriminate.
    + intros -> Hfit%Z.leb_le Hready%Z.ltb_ge ->.
      rewrite Hfit, Hready. reflexivity.
  - destruct (paused s); [discriminate|].
    destruct (_ <=? UINT256_MAX); simpl negb; cbv iota; [|discriminate].
    destruct (block_timestamp env <? _); [discriminate|].
    destruct (negb (providers_at s (msg_sender env))); [discriminate|].
    destruct (negb (batchClosed_at s id) || _) eqn:Hcheck; [discriminate|].
    apply orb_false_elim in Hcheck as [Hclosed%negb_false_iff Hlen].
    destruct (selectWinner (batchBids_at s id)) as [w|] eqn:Hw;
      [|discriminate].
    intros _. cbn [outcome post effects store log].
    split; [exact Hclosed|]. split.
    { intros Hnil. rewrite Hnil in Hw. discriminate. }
    exists w. split; [by apply selectWinner_elem|].
    split; [intros m; by apply selection_run|].
    cbv zeta. split; [reflexivity|]. split; [reflexivity|].
    unfold decryptionContexts_at, set_decryptionContext.
    cbn [decryptionContexts]. rewrite lookup_insert_eq. reflexivity.
Qed.

End Properties.

(** ** The scan under a sound comparison *)

Section Sound.

Context `{C : FHE.Capability} `{!FHE.Sound C}.

Definition amount_of (b : Bid) : Z := FHE.amount (encryptedBidAmount b).

(** [w] is the bid at index [i], no bid has a larger amount, and every bid
    after it has a strictly smaller one: [w] is the last of the bids with
    the highest amount. *)
Definition last_highest (bids : list Bid) (i : nat) (w : Bid) : Prop :=
  bids !! i = Some w /\
  (forall j b, bids !! j = Some b -> amount_of b <= amount_of w) /\
  (forall j b, bids !! j = Some b -> (i < j)%nat -> amount_of b < amount_of w).

Lemma pick_sound (h x : Bid) :
  pick h x = if amount_of h <=? amount_of x then x else h.
Proof. unfold pick, amount_of. rewrite FHE.ge_sound. reflexivity. Qed.

Lemma last_highest_snoc (pre : list Bid) (j : nat) (h x : Bid) :
  last_highest pre j h ->
  exists j', last_highest (pre ++ [x]) j' (pick h x).
Proof.
  intros (Hj & Hmax & Hlast). rewrite pick_sound.
  destruct (amount_of h <=? amount_of x) eqn:Hcmp.
  - apply Z.leb_le in Hcmp. exists (length pre). split; [|split].
    + rewrite lookup_app_r by lia. by rewrite Nat.sub_diag.
    + intros k b [Hk | [_ Hk]]%lookup_app_Some.
      * specialize (Hmax k b Hk). lia.
      * apply list_lookup_singleton_Some in Hk as [_ <-]. lia.
    + intros k b [Hk | [Hge Hk]]%lookup_app_Some Hlt.
      * apply lookup_lt_Some in Hk. lia.
      * apply list_lookup_singleton_Some in Hk as [Hk _]. lia.
  - apply Z.leb_gt in Hcmp. exists j. split; [|split].
    + by apply lookup_app_l_Some.
    + intros k b [Hk | [_ Hk]]%lookup_app_Some.
      * by apply (Hmax k).
      * apply list_lookup_singleton_Some in Hk as [_ <-]. lia.
    + intros k b [Hk | [_ Hk]]%lookup_app_Some Hlt.
      * by apply (Hlast k).
      * by apply list_lookup_singleton_Some in Hk as [_ <-].
Qed.

Lemma fold_pick_last_highest (rest pre : list Bid) (j : nat) (h : Bid) :
  last_highest pre j h ->
  exists i, last_highest (pre ++ rest) i (fold_left pick rest h).
Proof.
  revert pre j h. induction rest as [|x rest IH]; intros pre j h Hinv; simpl.
  - rewrite app_nil_r. eauto.
  - destruct (last_highest_snoc pre j h x Hinv) as [j' Hinv'].
    destruct (IH _ _ _ Hinv') as [i Hi].
    exists i. by rewrite <- app_assoc in Hi.
Qed.

Lemma selectWinner_last_highest (bids : list Bid) :
  bids <> [] ->
  exists i w, selectWinner bids = Some w /\ last_highest bids i w.
Proof.
  destruct bids as [|b0 rest]; [done|]. intros _.
  destruct (fold_pick_last_highest rest [b0] 0 b0) as [i Hi].
  - split; [reflexivity|]. split.
    + intros j b Hb. apply list_lookup_singleton_Some in Hb as [_ <-]. lia.
    + intros j b Hb Hlt. apply list_lookup_singleton_Some in Hb as [-> _]. lia.
  - exists i, (fold_left pick rest b0). split; [reflexivity | exact Hi].
Qed.

(** C1. On a batch with at least two bids, the scan returns the last bid in
    submission order whose amount is at least every other bid's amount. For
    bids of amounts 10, 30, 20, 30 it returns the bid at index 3. The
    decryption request submits that bid's encrypted amount, and the callback
    reports that bid's bidder as the winner. *)
Theorem scan_selects_last_highest_bid :
  (forall (bids : list Bid) (m : Machine),
     (2 <= length bids)%nat ->
     exists i w, scanHighest bids m = (inr w, m) /\ last_highest bids i w) /\
  (forall (b0 b1 b2 b3 : Bid) (m : Machine),
     amount_of b0 = 10 -> amount_of b1 = 30 ->
     amount_of b2 = 20 -> amount_of b3 = 30 ->
     scanHighest [b0; b1; b2; b3] m = (inr b3, m) /\
     last_highest [b0; b1; b2; b3] 3 b3) /\
  (forall (env : Env) (s : Storage) (id : Z),
     (2 <= length (batchBids_at s id))%nat ->
     outcome (transact (RequestAuctionResultDecryption id) env s) = Success ->
     exists i w,
       last_highest (batchBids_at s id) i w /\
       effects (transact (RequestAuctionResultDecryption id) env s) =
         [RequestDecryption [FHE.toBytes32 (encryptedBidAmount w)]
            myCallback_selector;
          DecryptionRequested (oracle_requestId env) id]) /\
  (forall (env : Env) (s : Storage) (rid : Z) (ct pf : list byte),
     let id := batchId (decryptionContexts_at s rid) in
     (2 <= length (batchBids_at s id))%nat ->
     outcome (transact (MyCallback rid ct pf) env s) = Success ->
     exists i w v,
       last_highest (batchBids_at s id) i w /\
       effects (transact (MyCallback rid ct pf) env s) =
         [DecryptionCompleted rid id v (bidder w)]).
Proof.
  assert (forall bids : list Bid, (2 <= length bids)%nat -> bids <> [])
    as Hne by (intros [|] ?; simpl in *; [lia | done]).
  repeat apply conj.
  - intros bids m Hlen.
    destruct (selectWinner_last_highest bids (Hne _ Hlen)) as (i & w & Hw & Hi).
    exists i, w. rewrite scanHighest_run, Hw. split; [reflexivity | exact Hi].
  - intros b0 b1 b2 b3 m H0 H1 H2 H3.
    assert (selectWinner [b0; b1; b2; b3] = Some b3) as Hw.
    { simpl. rewrite !pick_sound, H0, H1. simpl.
      rewrite H1, H2. simpl. rewrite H1, H3. reflexivity. }
    split; [by rewrite scanHighest_run, Hw|].
    split; [reflexivity|]. split.
    + intros [|[|[|[|j]]]] b Hb; simpl in Hb; simplify_eq; lia.
    + intros [|[|[|[|j]]]] b Hb Hlt; simpl in Hb; simplify_eq; lia.
  - intros env s id Hlen.
    destruct (selectWinner_last_highest _ (Hne _ Hlen)) as (i & w & Hw & Hi).
    rewrite transact_request. unfold request_result. cbn [store log].
    rewrite Hw. repeat case_match; simplify_eq; simpl; try discriminate.
    intros _. exists i, w. split; [exact Hi | reflexivity].
  - intros env s rid ct pf id Hlen. subst id.
    destruct (selectWinner_last_highest _ (Hne _ Hlen)) as (i & w & Hw & Hi).
    rewrite transact_myCallback. unfold myCallback_result. cbn [store log].
    rewrite Hw. repeat case_match; simplify_eq; simpl; try discriminate.
    intros _. eexists i, w, _. split; [exact Hi | reflexivity].
Qed.

End Sound.

(** ** Access control *)

Section Access.

Context `{C : FHE.Capability}.

Ltac run_call :=
  unfold transact, run, transferOwnership, addProvider, removeProvider,
    setPaused, setCooldownSeconds, openBatch, closeBatch, onlyOwner,
    onlyProvider, whenNotPaused;
  unfold_monad; reduce_run;
  repeat match goal with
         | |- context [if ?c then _ else _] => destruct c eqn:?; reduce_run
         end.

(** The five owner-only entry points, with the write and the event of each. *)
Definition owner_update (op : Op) (s : Storage) : option (Storage * Effect) :=
  match op with
  | TransferOwnership newOwner =>
      Some (set_owner newOwner s, OwnershipTransferred (owner s) newOwner)
  | AddProvider p => Some (set_provider p true s, ProviderAdded p)
  | RemoveProvider p => Some (set_provider p false s, ProviderRemoved p)
  | SetPaused p => Some (set_paused p s, PausedSet p)
  | SetCooldownSeconds n =>
      Some (set_cooldownSeconds n s, CooldownSecondsSet n)
  | _ => None
  end.

Lemma transact_owner_op (op : Op) (env : Env) (s s' : Storage) (e : Effect) :
  owner_update op s = Some (s', e) ->
  transact op env s =
    if msg_sender env =? owner s
    then {| outcome := Success; post := s'; effects := [e] |}
    else {| outcome := Reverted NotOwner; post := s; effects := [] |}.
Proof.
  destruct op; simpl; intros Hup; simplify_eq;
    unfold transact, run, transferOwnership, addProvider, removeProvider,
      setPaused, setCooldownSeconds, onlyOwner;
    unfold_monad; reduce_run;
    destruct (msg_sender env =? owner s); reflexivity.
Qed.

(** The owner-only entry points check the caller and nothing else. Called
    by the owner they succeed in every state, paused or not, with one write
    and one event; called by anyone else they fail with [NotOwner]. So the
    owner can always resume a paused contract. *)
Theorem owner_entry_points (op : Op) (env : Env) (s s' : Storage)
    (e : Effect) :
  owner_update op s = Some (s', e) ->
  (msg_sender env = owner s ->
   transact op env s =
     {| outcome := Success; post := s'; effects := [e] |}) /\
  (msg_sender env <> owner s ->
   outcome (transact op env s) = Reverted NotOwner) /\
  (msg_sender env = owner s ->
   paused (post (transact (SetPaused false) env s)) = false).
Proof.
  intros Hup. rewrite (transact_owner_op op env s s' e Hup).
  rewrite (transact_owner_op (SetPaused false) env s _ _ eq_refl).
  repeat apply conj.
  - intros ->%Z.eqb_eq. reflexivity.
  - intros ->%Z.eqb_neq. reflexivity.
  - intros ->%Z.eqb_eq. reflexivity.
Qed.

(** What a call leaves alone: the owner, the providers, the pause switch
    and the cooldown are written by the owner-only entry points only. *)
Lemma config_after (op : Op) (env : Env) (s : Storage) :
  owner_update op s = None ->
  let s' := post (transact op env s) in
  owner s' = owner s /\ providers s' = providers s /\
  paused s' = paused s /\ cooldownSeconds s' = cooldownSeconds s.
Proof.
  destruct op; simpl; try discriminate; intros _.
  - run_call; simpl; repeat split; congruence.
  - run_call; simpl; repeat split; congruence.
  - rewrite transact_submitBid. unfold submitBid_result. cbn [store log].
    repeat case_match; simplify_eq; simpl; repeat split; congruence.
  - rewrite transact_request. unfold request_result. cbn [store log].
    repeat case_match; simplify_eq; simpl; repeat split; congruence.
  - rewrite transact_myCallback. unfold myCallback_result. cbn [store log].
    repeat case_match; simplify_eq; simpl; repeat split; congruence.
Qed.

(** Only the owner changes the configuration: a call after which the owner,
    the provider set, the pause switch or the cooldown differs from before
    was a successful call of an owner-only entry point by the owner. *)
Theorem configuration_changes_need_owner (op : Op) (env : Env) (s : Storage) :
  let s' := post (transact op env s) in
  owner s' <> owner s \/ providers s' <> providers s \/
  paused s' <> paused s \/ cooldownSeconds s' <> cooldownSeconds s ->
  msg_sender env = owner s /\
  outcome (transact op env s) = Success /\
  exists e, owner_update op s = Some (s', e).
Proof.
  intros s' Hchange. subst s'.
  destruct (owner_update op s) as [[s1 e]|] eqn:Hup.
  - rewrite (transact_owner_op op env s s1 e Hup) in *.
    destruct (msg_sender env =? owner s) eqn:Hown; simpl in *.
    + apply Z.eqb_eq in Hown. eauto.
    + destruct Hchange as [H|[H|[H|H]]]; congruence.
  - destruct (config_after op env s Hup) as (Ho & Hp & Hpa & Hcd).
    destruct Hchange as [H|[H|[H|H]]]; congruence.
Qed.

(** A batch flag changes only in a call made by a provider while the
    contract is not paused. *)
Theorem batch_changes_need_provider (op : Op) (env : Env) (s : Storage) :
  let s' := post (transact op env s) in
  batchActive s' <> batchActive s \/ batchClosed s' <> batchClosed s ->
  providers_at s (msg_sender env) = true /\ paused s = false /\
  outcome (transact op env s) = Success /\
  exists id, op = OpenBatch id \/ op = CloseBatch id.
Proof.
  intros s' Hchange. subst s'.
  destruct (flags_after op env s)
    as [[Ha Hc] | [(i & Hop & Hok & _) | (i & Hop & Hok & _)]].
  - destruct Hchange; congruence.
  - subst op. revert Hok. run_call; simpl; try discriminate. intros _.
    apply negb_false_iff in Heqb. eauto 10.
  - subst op. revert Hok. run_call; simpl; try discriminate. intros _.
    apply negb_false_iff in Heqb. eauto 10.
Qed.

(** Handing over the ownership is complete at once and touches nothing
    else: the new owner passes every owner check and the old one none, and
    the provider flags are as before, so the old owner keeps its provider
    flag and the new owner is a provider only if it was one already. *)
Theorem ownership_handover (env : Env) (s : Storage) (newOwner : Z) :
  msg_sender env = owner s ->
  newOwner <> owner s ->
  let s' := post (transact (TransferOwnership newOwner) env s) in
  s' = set_owner newOwner s /\
  (forall a, providers_at s' a = providers_at s a) /\
  (forall op env' s1 e,
     owner_update op s' = Some (s1, e) ->
     (msg_sender env' = owner s ->
      outcome (transact op env' s') = Reverted NotOwner) /\
     (msg_sender env' = newOwner ->
      outcome (transact op env' s') = Success)).
Proof.
  intros Hown Hnew s'. subst s'.
  rewrite (transact_owner_op (TransferOwnership newOwner) env s _ _ eq_refl).
  apply Z.eqb_eq in Hown. rewrite Hown. cbn [post].
  split; [reflexivity|]. split; [reflexivity|].
  intros op env' s1 e Hup. rewrite (transact_owner_op op env' _ s1 e Hup).
  cbn [owner set_owner]. split; intros ->.
  - apply Z.eqb_eq in Hown. rewrite <- Hown in Hnew.
    apply not_eq_sym, Z.eqb_neq in Hnew. rewrite Hown in Hnew.
    rewrite Hnew. reflexivity.
  - rewrite Z.eqb_refl. reflexivity.
Qed.

(** Adding a provider sets its flag and no other; adding it again changes
    nothing. *)
Theorem provider_added (env : Env) (s : Storage) (p : Z) :
  msg_sender env = owner s ->
  let s' := post (transact (AddProvider p) env s) in
  providers_at s' p = true /\
  (forall q, q <> p -> providers_at s' q = providers_at s q) /\
  transact (AddProvider p) env s' =
    {| outcome := Success; post := s'; effects := [ProviderAdded p] |}.
Proof.
  intros Hown s'. subst s'. apply Z.eqb_eq in Hown.
  rewrite (transact_owner_op (AddProvider p) env s _ _ eq_refl), Hown. cbn [post].
  split; [|split].
  - unfold providers_at, set_provider. cbn [providers].
    rewrite lookup_insert_eq. reflexivity.
  - intros q Hq. unfold providers_at, set_provider. cbn [providers].
    rewrite lookup_insert_ne by done. reflexivity.
  - rewrite (transact_owner_op (AddProvider p) env _ _ _ eq_refl).
    cbn [owner set_provider]. rewrite Hown.
    unfold set_provider. cbn. rewrite insert_insert_eq. reflexivity.
Qed.

(** Removing a provider clears its flag and no other, and locks it out at
    once: its [openBatch] and [closeBatch] calls fail with [NotProvider], and
    its decryption requests cannot succeed. The owner can remove any address,
    its own included. *)
Theorem provider_removed (env : Env) (s : Storage) (p : Z) :
  msg_sender env = owner s ->
  let s' := post (transact (RemoveProvider p) env s) in
  providers_at s' p = false /\
  (forall q, q <> p -> providers_at s' q = providers_at s q) /\
  (forall env' id,
     msg_sender env' = p ->
     outcome (transact (OpenBatch id) env' s') = Reverted NotProvider /\
     outcome (transact (CloseBatch id) env' s') = Reverted NotProvider /\
     outcome (transact (RequestAuctionResultDecryption id) env' s')
       <> Success).
Proof.
  intros Hown s'. subst s'. apply Z.eqb_eq in Hown.
  rewrite (transact_owner_op (RemoveProvider p) env s _ _ eq_refl), Hown. cbn [post].
  assert (providers_at (set_provider p false s) p = false) as Hflag.
  { unfold providers_at, set_provider. cbn [providers].
    rewrite lookup_insert_eq. reflexivity. }
  split; [exact Hflag|]. split.
  - intros q Hq. unfold providers_at, set_provider. cbn [providers].
    rewrite lookup_insert_ne by done. reflexivity.
  - intros env' id Hp. split; [|split].
    + run_call; simpl; try reflexivity; rewrite Hp, Hflag in *; discriminate.
    + run_call; simpl; try reflexivity; rewrite Hp, Hflag in *; discriminate.
    + rewrite transact_request. unfold request_result. cbn [store log].
      rewrite Hp, Hflag.
      repeat case_match; simplify_eq; simpl; discriminate.
Qed.

(** While the contract is paused, bids and decryption requests fail with
    [Paused] for every caller; [openBatch] and [closeBatch] check the role
    first, so they fail with [Paused] for a provider and with [NotProvider]
    for anyone else. *)
Theorem paused_contract_rejects (env : Env) (s : Storage) :
  paused s = true ->
  (forall id a b,
     outcome (transact (SubmitBid id a b) env s) = Reverted Paused) /\
  (forall id,
     outcome (transact (RequestAuctionResultDecryption id) env s)
       = Reverted Paused) /\
  (forall id,
     outcome (transact (OpenBatch id) env s) =
       Reverted (if providers_at s (msg_sender env)
                 then Paused else NotProvider)) /\
  (forall id,
     outcome (transact (CloseBatch id) env s) =
       Reverted (if providers_at s (msg_sender env)
                 then Paused else NotProvider)).
Proof.
  intros Hp. repeat apply conj.
  - intros id a b. rewrite transact_submitBid. unfold submitBid_result.
    cbn [store log]. rewrite Hp. reflexivity.
  - intros id. rewrite transact_request. unfold request_result.
    cbn [store log]. rewrite Hp. reflexivity.
  - intros id. unfold transact, run, openBatch, onlyProvider, whenNotPaused.
    unfold_monad. reduce_run.
    destruct (providers_at s (msg_sender env)); reduce_run; [|reflexivity].
    rewrite Hp. reflexivity.
  - intros id. unfold transact, run, closeBatch, onlyProvider, whenNotPaused.
    unfold_monad. reduce_run.
    destruct (providers_at s (msg_sender env)); reduce_run; [|reflexivity].
    rewrite Hp. reflexivity.
Qed.

(** Pausing and then resuming gives back the storage the contract had. *)
Theorem pause_then_resume (env1 env2 : Env) (s : Storage) :
  paused s = false ->
  msg_sender env1 = owner s ->
  msg_sender env2 = owner s ->
  let s1 := post (transact (SetPaused true) env1 s) in
  paused s1 = true /\
  transact (SetPaused false) env2 s1 =
    {| outcome := Success; post := s; effects := [PausedSet false] |}.
Proof.
  intros Hp H1 H2 s1. subst s1.
  apply Z.eqb_eq in H1, H2.
  rewrite (transact_owner_op (SetPaused true) env1 s _ _ eq_refl), H1. cbn [post].
  split; [reflexivity|].
  rewrite (transact_owner_op (SetPaused false) env2 _ _ _ eq_refl).
  cbn [owner set_paused]. rewrite H2.
  destruct s; simpl in *; subst; reflexivity.
Qed.

End Access.

(** ** Bids *)

Section Bids.

Context `{C : FHE.Capability}.

Ltac run_plain :=
  unfold transact, run, transferOwnership, addProvider, removeProvider,
    setPaused, setCooldownSeconds, openBatch, closeBatch, onlyOwner,
    onlyProvider, whenNotPaused;
  unfold_monad; reduce_run;
  repeat match goal with
         | |- context [if ?c then _ else _] => destruct c eqn:?; reduce_run
         end.

(** An accepted bid: its place, its content and what else the call wrote. *)
Lemma transact_submitBid_success (env : Env) (s : Storage) (id : Z)
    (a b : FHE.euint32) :
  outcome (transact (SubmitBid id a b) env s) = Success ->
  paused s = false /\
  batchActive_at s id = true /\
  FHE.isInitialized a = true /\ FHE.isInitialized b = true /\
  lastSubmissionTime_at s (msg_sender env) + cooldownSeconds s
    <= block_timestamp env /\
  transact (SubmitBid id a b) env s =
    {| outcome := Success;
       post :=
         push_batchBids id
           {| encryptedBidAmount := a; encryptedTargetingScore := b;
              bidder := msg_sender env |}
           (set_lastSubmissionTime (msg_sender env) (block_timestamp env) s);
       effects := [BidSubmitted (msg_sender env) id] |}.
Proof.
  rewrite transact_submitBid. unfold submitBid_result. cbn [store log].
  destruct (paused s); [discriminate|].
  destruct (_ <=? UINT256_MAX); simpl negb; cbv iota; [|discriminate].
  destruct (block_timestamp env <? _) eqn:Hcool; [discriminate|].
  apply Z.ltb_ge in Hcool.
  destruct (batchActive_at s id); simpl negb; cbv iota; [|discriminate].
  destruct (FHE.isInitialized a); simpl negb; cbv iota; [|discriminate].
  destruct (FHE.isInitialized b); simpl negb; cbv iota; [|discriminate].
  intros _. repeat split; assumption.
Qed.

(** What a call does to the bids. *)
Lemma bids_after (op : Op) (env : Env) (s : Storage) :
  let r := transact op env s in
  batchBids (post r) = batchBids s \/
  exists id a b,
    op = SubmitBid id a b /\ outcome r = Success /\
    batchBids (post r) =
      <[id := batchBids_at s id ++
              [{| encryptedBidAmount := a; encryptedTargetingScore := b;
                  bidder := msg_sender env |}]]> (batchBids s).
Proof.
  destruct op; cbv zeta.
  1-7: left; run_plain; reflexivity.
  - destruct (outcome (transact (SubmitBid batchId0 encBid encScore) env s))
      eqn:Hout.
    + right. exists batchId0, encBid, encScore.
      destruct (transact_submitBid_success _ _ _ _ _ Hout)
        as (_ & _ & _ & _ & _ & ->).
      repeat split.
    + left.
      destruct (transact (SubmitBid batchId0 encBid encScore) env s) eqn:Hr.
      revert Hr. unfold transact.
      destruct (run _ _ _) as [[e'|[]] m]; intros [= <- <- <-];
        simpl in *; [reflexivity | discriminate].
  - left. rewrite transact_request. unfold request_result. cbn [store log].
    repeat case_match; simplify_eq; reflexivity.
  - left. rewrite transact_myCallback. unfold myCallback_result.
    cbn [store log]. repeat case_match; simplify_eq; reflexivity.
Qed.

(** What a call does to the bids of one batch. *)
Lemma bids_step (op : Op) (env : Env) (s : Storage) (id : Z) :
  let r := transact op env s in
  batchBids_at (post r) id = batchBids_at s id \/
  exists a b,
    op = SubmitBid id a b /\ outcome r = Success /\
    batchActive_at s id = true /\
    batchBids_at (post r) id =
      batchBids_at s id ++
        [{| encryptedBidAmount := a; encryptedTargetingScore := b;
            bidder := msg_sender env |}].
Proof.
  cbv zeta.
  destruct (bids_after op env s) as [Hsame | (i & a & b & Hop & Hok & Hbids)].
  - left. unfold batchBids_at. by rewrite Hsame.
  - destruct (decide (i = id)) as [->|Hne].
    + right. exists a, b. subst op.
      destruct (transact_submitBid_success _ _ _ _ _ Hok)
        as (_ & Hact & _).
      repeat split; try assumption.
      unfold batchBids_at at 1. rewrite Hbids, lookup_insert_eq. reflexivity.
    + left. unfold batchBids_at at 1.
      rewrite Hbids, lookup_insert_ne by done. reflexivity.
Qed.

(** Bids are append-only. A call leaves the bids of a batch as they are,
    except an accepted [submitBid] to that batch, which adds one bid at the
    end, carrying the caller's address and the two ciphertexts of the call.
    So through any history of calls the bids a batch had are a prefix of the
    bids it has: no call removes, reorders or rewrites a bid. *)
Theorem bids_are_append_only (s : Storage) (id : Z) :
  (forall op env,
     let r := transact op env s in
     batchBids_at (post r) id = batchBids_at s id \/
     exists a b,
       op = SubmitBid id a b /\ outcome r = Success /\
       batchBids_at (post r) id =
         batchBids_at s id ++
           [{| encryptedBidAmount := a; encryptedTargetingScore := b;
               bidder := msg_sender env |}]) /\
  (forall cs : list Call,
     batchBids_at s id `prefix_of` batchBids_at (run_calls cs s) id).
Proof.
  split.
  - intros op env. cbv zeta.
    destruct (bids_step op env s id) as [Hsame | (a & b & Hop & Hok & _ & Happ)];
      [by left | right; eauto].
  - intros cs. revert s. induction cs as [|c cs IH]; intros s; simpl.
    + reflexivity.
    + etrans; [|apply IH]. unfold step.
      destruct (bids_step (call_op c) (call_env c) s id)
        as [-> | (a & b & _ & _ & _ & ->)];
        [reflexivity | by apply prefix_app_r].
Qed.

Lemma phase_closed_flags (s : Storage) (id : Z) :
  phase s id = Some Closed ->
  batchActive_at s id = false /\ batchClosed_at s id = true.
Proof.
  unfold phase.
  destruct (batchActive_at s id), (batchClosed_at s id);
    try discriminate; split; reflexivity.
Qed.

Lemma closed_step (s : Storage) (c : Call) (id : Z) :
  phase s id = Some Closed ->
  phase (step s c) id = Some Closed /\
  batchBids_at (step s c) id = batchBids_at s id.
Proof.
  intros Hph. unfold step.
  destruct (phase_closed_flags s id Hph) as [Hact Hcl].
  split.
  - destruct (flags_after (call_op c) (call_env c) s)
      as [[Ha Hc] | [(i & _ & _ & _ & Hic & Ha & Hc)
                    | (i & _ & _ & Hia & Ha & Hc)]].
    + rewrite (phase_of_flags _ _ _ Ha Hc). exact Hph.
    + destruct (decide (i = id)) as [->|Hne]; [congruence|].
      unfold phase, batchActive_at, batchClosed_at in *.
      rewrite Ha, Hc, lookup_insert_ne by done. exact Hph.
    + destruct (decide (i = id)) as [->|Hne]; [congruence|].
      unfold phase, batchActive_at, batchClosed_at in *.
      rewrite Ha, Hc, !lookup_insert_ne by done. exact Hph.
  - destruct (bids_step (call_op c) (call_env c) s id)
      as [Hsame | (a & b & _ & _ & Hactive & _)];
      [exact Hsame | congruence].
Qed.

Lemma closed_run_calls (cs : list Call) (s : Storage) (id : Z) :
  phase s id = Some Closed ->
  phase (run_calls cs s) id = Some Closed /\
  batchBids_at (run_calls cs s) id = batchBids_at s id.
Proof.
  revert s. induction cs as [|c cs IH]; intros s Hclosed; simpl.
  - split; [exact Hclosed | reflexivity].
  - destruct (closed_step s c id Hclosed) as [Hph1 Hb1].
    destruct (IH _ Hph1) as [Hph2 Hb2].
    split; [exact Hph2 | congruence].
Qed.

(** A closed batch is final. From a state in which the batch is closed,
    through any history of calls, the batch stays closed and its bids stay
    what they were when it closed; [openBatch], [closeBatch] and [submitBid]
    on it never succeed again. *)
Theorem closed_batch_is_final (s : Storage) (id : Z) (cs : list Call) :
  phase s id = Some Closed ->
  let s' := run_calls cs s in
  phase s' id = Some Closed /\
  batchBids_at s' id = batchBids_at s id /\
  (forall env,
     outcome (transact (OpenBatch id) env s') <> Success /\
     outcome (transact (CloseBatch id) env s') <> Success) /\
  (forall env a b, outcome (transact (SubmitBid id a b) env s') <> Success).
Proof.
  intros Hclosed s'. subst s'.
  destruct (closed_run_calls cs s id Hclosed) as [Hph Hbids].
  split; [exact Hph|]. split; [exact Hbids|].
  destruct (phase_closed_flags _ id Hph) as [Hact Hcl].
  split.
  - intros env. split.
    + run_plain; simpl; try discriminate.
      rewrite Hact, Hcl in *. discriminate.
    + run_plain; simpl; try discriminate.
      rewrite Hact in *. discriminate.
  - intros env a b Hok.
    destruct (transact_submitBid_success _ _ _ _ _ Hok) as (_ & Hactive & _).
    congruence.
Qed.

(** [closeBatch] succeeds exactly when a provider calls it on a contract
    that is not paused for a batch that is active; the batch is closed
    afterwards and its bids are untouched. On a batch that was never opened,
    or that is closed already, it fails, with [InvalidBatch] once the two
    modifiers have passed. *)
Theorem closeBatch_outcomes (env : Env) (s : Storage) (id : Z) :
  let r := transact (CloseBatch id) env s in
  (outcome r = Success <->
   providers_at s (msg_sender env) = true /\ paused s = false /\
   batchActive_at s id = true) /\
  (outcome r = Success ->
   phase (post r) id = Some Closed /\
   batchBids_at (post r) id = batchBids_at s id /\
   effects r = [BatchClosed id]) /\
  (batchActive_at s id = false ->
   providers_at s (msg_sender env) = true -> paused s = false ->
   outcome r = Reverted InvalidBatch).
Proof.
  cbv zeta. run_plain; simpl.
  - split; [|split]; try discriminate.
    + split; [discriminate|]. intros (Hprov & _).
      rewrite Hprov in *. discriminate.
    + intros _ Hprov. rewrite Hprov in *. discriminate.
  - split; [|split]; try discriminate.
    split; [discriminate|]. intros (_ & ? & _). discriminate.
  - apply negb_true_iff in Heqb1. split; [|split]; try discriminate.
    + split; [discriminate|]. intros (_ & _ & ?). congruence.
    + reflexivity.
  - apply negb_false_iff in Heqb, Heqb1. split; [|split].
    + split; [intros _; repeat split; assumption | reflexivity].
    + intros _. split; [|split; reflexivity].
      unfold phase, batchActive_at, batchClosed_at, set_batchClosed,
        set_batchActive. cbn [batchActive batchClosed].
      rewrite !lookup_insert_eq. reflexivity.
    + congruence.
Qed.

(** Every bid the contract holds was checked when it came in: in every
    reachable state both ciphertexts of every stored bid are initialized. *)
Theorem stored_bids_are_initialized (s : Storage) :
  reachable s ->
  forall id b,
    b ∈ batchBids_at s id ->
    FHE.isInitialized (encryptedBidAmount b) = true /\
    FHE.isInitialized (encryptedTargetingScore b) = true.
Proof.
  induction 1 as [env | s c _ IH]; intros id b Hin.
  - unfold batchBids_at, constructor in Hin. cbn [batchBids] in Hin.
    rewrite lookup_empty in Hin. simpl in Hin. by apply elem_of_nil in Hin.
  - unfold step in Hin.
    destruct (bids_step (call_op c) (call_env c) s id)
      as [Hsame | (a & a' & Hop & Hok & _ & Happ)].
    + rewrite Hsame in Hin. by apply IH in Hin.
    + rewrite Happ in Hin. apply elem_of_app in Hin as [Hold | Hnew].
      * by apply IH in Hold.
      * apply list_elem_of_singleton in Hnew as ->. rewrite Hop in Hok.
        destruct (transact_submitBid_success _ _ _ _ _ Hok)
          as (_ & _ & Ha & Ha' & _).
        split; assumption.
Qed.

Definition opened (s : Storage) (id : Z) : bool :=
  batchActive_at s id || batchClosed_at s id.

Lemma opened_step (s : Storage) (c : Call) (id : Z) :
  opened s id = true -> opened (step s c) id = true.
Proof.
  unfold opened, step. intros Hop.
  destruct (flags_after (call_op c) (call_env c) s)
    as [[Ha Hc] | [(i & _ & _ & _ & _ & Ha & Hc)
                  | (i & _ & _ & _ & Ha & Hc)]];
    unfold batchActive_at, batchClosed_at in *; rewrite Ha, Hc.
  - exact Hop.
  - destruct (decide (i = id)) as [->|Hne].
    + rewrite lookup_insert_eq. reflexivity.
    + rewrite lookup_insert_ne by done. exact Hop.
  - destruct (decide (i = id)) as [->|Hne].
    + rewrite !lookup_insert_eq. reflexivity.
    + rewrite !lookup_insert_ne by done. exact Hop.
Qed.

(** Bids exist only in batches that were opened: in every reachable state a
    batch that holds a bid is active or closed, never unopened. *)
Theorem bids_only_in_opened_batches (s : Storage) :
  reachable s ->
  forall id,
    batchBids_at s id <> [] ->
    phase s id = Some Active \/ phase s id = Some Closed.
Proof.
  intros Hreach id Hbids.
  assert (opened s id = true) as Hop.
  { revert id Hbids. induction Hreach as [env | s c _ IH]; intros id Hbids.
    - exfalso. apply Hbids. unfold batchBids_at, constructor.
      cbn [batchBids]. rewrite lookup_empty. reflexivity.
    - destruct (bids_step (call_op c) (call_env c) s id)
        as [Hsame | (a & b & _ & _ & Hact & _)].
      + apply opened_step, IH. unfold step in Hbids. by rewrite Hsame in Hbids.
      + apply opened_step. unfold opened. rewrite Hact. reflexivity. }
  pose proof (reachable_flags_consistent s Hreach id) as Hcons.
  unfold opened in Hop. unfold phase.
  destruct (batchActive_at s id), (batchClosed_at s id);
    try discriminate; auto.
Qed.

(** An accepted bid starts the caller's cooldown: it records the call's
    timestamp for the caller and for nobody else, and a further bid of the
    same caller before that timestamp plus the cooldown fails with
    [CooldownActive] (when the sum fits in a [uint256]). *)
Theorem accepted_bid_starts_cooldown (env : Env) (s : Storage) (id : Z)
    (a b : FHE.euint32) :
  outcome (transact (SubmitBid id a b) env s) = Success ->
  let s' := post (transact (SubmitBid id a b) env s) in
  lastSubmissionTime_at s' (msg_sender env) = block_timestamp env /\
  (forall other,
     other <> msg_sender env ->
     lastSubmissionTime_at s' other = lastSubmissionTime_at s other) /\
  (forall env' id' a' b',
     msg_sender env' = msg_sender env ->
     block_timestamp env + cooldownSeconds s <= UINT256_MAX ->
     block_timestamp env' < block_timestamp env + cooldownSeconds s ->
     outcome (transact (SubmitBid id' a' b') env' s')
       = Reverted CooldownActive).
Proof.
  intros Hok s'. subst s'.
  destruct (transact_submitBid_success _ _ _ _ _ Hok)
    as (Hp & _ & _ & _ & _ & ->).
  cbn [post].
  assert (forall x,
            lastSubmissionTime_at
              (push_batchBids id
                 {| encryptedBidAmount := a; encryptedTargetingScore := b;
                    bidder := msg_sender env |}
                 (set_lastSubmissionTime (msg_sender env)
                    (block_timestamp env) s)) x
            = default 0 (<[msg_sender env := block_timestamp env]>
                           (lastSubmissionTime s) !! x)) as Hlast
    by reflexivity.
  split; [|split].
  - rewrite Hlast, lookup_insert_eq. reflexivity.
  - intros other Hne. rewrite Hlast, lookup_insert_ne by done. reflexivity.
  - intros env' id' a' b' Hsender Hfit Hlt.
    rewrite transact_submitBid. unfold submitBid_result. cbn [store log].
    rewrite Hsender, Hlast, lookup_insert_eq.
    cbn [paused cooldownSeconds push_batchBids set_lastSubmissionTime default].
    rewrite Hp. unfold Datatypes.id.
    apply Z.leb_le in Hfit. rewrite Hfit. simpl negb. cbv iota.
    apply Z.ltb_lt in Hlt. rewrite Hlt. reflexivity.
Qed.

End Bids.

(** ** From the request to the callback *)

Section Oracle.

Context `{C : FHE.Capability}.

(** An accepted decryption request: what it found and what it wrote. *)
Lemma transact_request_success (env : Env) (s : Storage) (id : Z) :
  outcome (transact (RequestAuctionResultDecryption id) env s) = Success ->
  exists w,
    selectWinner (batchBids_at s id) = Some w /\
    batchClosed_at s id = true /\
    transact (RequestAuctionResultDecryption id) env s =
      {| outcome := Success;
         post :=
           set_decryptionContext (oracle_requestId env)
             {| batchId := id;
                stateHash :=
                  _hashCiphertexts env
                    [FHE.toBytes32 (encryptedBidAmount w)];
                processed := false |}
             (set_lastDecryptionRequestTime (msg_sender env)
                (block_timestamp env) s);
         effects :=
           [RequestDecryption [FHE.toBytes32 (encryptedBidAmount w)]
              myCallback_selector;
            DecryptionRequested (oracle_requestId env) id] |}.
Proof.
  rewrite transact_request. unfold request_result. cbn [store log].
  destruct (paused s); [discriminate|].
  destruct (_ <=? UINT256_MAX); simpl negb; cbv iota; [|discriminate].
  destruct (block_timestamp env <? _); [discriminate|].
  destruct (negb (providers_at s (msg_sender env))); [discriminate|].
  destruct (negb (batchClosed_at s id) || _) eqn:Hcheck; [discriminate|].
  apply orb_false_elim in Hcheck as [Hclosed%negb_false_iff _].
  destruct (selectWinner (batchBids_at s id)) as [w|]; [|discriminate].
  intros _. exists w. repeat split. exact Hclosed.
Qed.

(** What a pending request relies on: its batch is closed with the bids it
    had at the request, and its context names that batch and holds the hash
    taken then. *)
Definition pending_request (id rid h : Z) (bids : list Bid) (s : Storage)
    : Prop :=
  phase s id = Some Closed /\
  batchBids_at s id = bids /\
  batchId (decryptionContexts_at s rid) = id /\
  stateHash (decryptionContexts_at s rid) = h.

Lemma pending_request_step (id rid h : Z) (bids : list Bid) (s : Storage)
    (c : Call) :
  issues rid c = false ->
  pending_request id rid h bids s ->
  pending_request id rid h bids (step s c).
Proof.
  intros Hfresh (Hph & Hbids & Hid & Hhash).
  destruct (closed_step s c id Hph) as (Hph' & Hbids').
  split; [exact Hph'|]. split; [congruence|].
  unfold step.
  destruct (contexts_after (call_op c) (call_env c) s)
    as [Hsame | [(i & ctx & Hop & Hctx) | (r & ct & pf & _ & _ & _ & Hpost)]].
  - unfold decryptionContexts_at in *. rewrite Hsame. by split.
  - unfold issues in Hfresh. rewrite Hop in Hfresh.
    apply Z.eqb_neq in Hfresh.
    unfold decryptionContexts_at in *.
    rewrite Hctx, lookup_insert_ne by done. by split.
  - rewrite Hpost.
    unfold set_processed, set_decryptionContext, decryptionContexts_at in *.
    cbn [decryptionContexts].
    destruct (decide (r = rid)) as [->|Hne].
    + rewrite lookup_insert_eq. by split.
    + rewrite lookup_insert_ne by done. by split.
Qed.

Lemma pending_request_run_calls (id rid h : Z) (bids : list Bid)
    (cs : list Call) (s : Storage) :
  oracle_fresh rid cs ->
  pending_request id rid h bids s ->
  pending_request id rid h bids (run_calls cs s).
Proof.
  intros Hfresh. revert s.
  induction Hfresh as [|c cs Hc _ IH]; intros s Hs; simpl; [exact Hs|].
  apply IH. by apply pending_request_step.
Qed.

(** A decryption request that was accepted in a reachable state can always
    be completed. Through any later history of calls (in which the oracle
    does not issue the identifier again), the callback for the request never
    fails with [InvalidState] and never hits the index panic: it fails with
    [ReplayDetected] once the request is processed, and until then it is an
    accepted proof and a decodable cleartext away from success, in which
    case it reports as winner the bidder of the bid whose amount the request
    submitted. *)
Theorem accepted_request_can_complete (env : Env) (s : Storage) (id : Z) :
  reachable s ->
  outcome (transact (RequestAuctionResultDecryption id) env s) = Success ->
  let rid := oracle_requestId env in
  let s' := post (transact (RequestAuctionResultDecryption id) env s) in
  exists w,
    w ∈ batchBids_at s id /\
    effects (transact (RequestAuctionResultDecryption id) env s) =
      [RequestDecryption [FHE.toBytes32 (encryptedBidAmount w)]
         myCallback_selector;
       DecryptionRequested rid id] /\
    forall (cs : list Call) (env' : Env) (ct pf : list byte),
      oracle_fresh rid cs ->
      this_address env' = this_address env ->
      let s'' := run_calls cs s' in
      let r := transact (MyCallback rid ct pf) env' s'' in
      outcome r <> Reverted InvalidState /\
      outcome r <> Reverted (Panic PANIC_INDEX) /\
      (processed (decryptionContexts_at s'' rid) = true ->
       outcome r = Reverted ReplayDetected) /\
      (processed (decryptionContexts_at s'' rid) = false ->
       FHE.checkSignatures rid ct pf = true ->
       forall v,
         decode_uint32 ct = Some v ->
         outcome r = Success /\
         effects r = [DecryptionCompleted rid id v (bidder w)]).
Proof.
  intros Hreach Hok rid s'. subst rid s'.
  destruct (transact_request_success env s id Hok) as (w & Hw & Hclosed & Hr).
  exists w. split; [by apply selectWinner_elem|].
  rewrite Hr. cbn [effects post]. split; [reflexivity|].
  intros cs env' ct pf Hfresh Hthis.
  set (h := _hashCiphertexts env [FHE.toBytes32 (encryptedBidAmount w)]).
  set (s1 := set_decryptionContext _ _ _).
  assert (pending_request id (oracle_requestId env) h (batchBids_at s id) s1)
    as Hpend.
  { pose proof (reachable_flags_consistent s Hreach id) as Hcons.
    rewrite Hclosed, andb_true_r in Hcons.
    split; [|split; [reflexivity|]].
    - change (phase s1 id) with (phase s id). unfold phase.
      by rewrite Hcons, Hclosed.
    - unfold s1, set_decryptionContext, decryptionContexts_at.
      cbn [decryptionContexts]. rewrite lookup_insert_eq. by split. }
  destruct (pending_request_run_calls _ _ _ _ cs s1 Hfresh Hpend)
    as (_ & Hbids & Hid & Hhash).
  cbv zeta. rewrite transact_myCallback. unfold myCallback_result.
  cbn [store log]. rewrite Hid, Hbids, Hw, Hhash.
  assert (_hashCiphertexts env' [FHE.toBytes32 (encryptedBidAmount w)] = h)
    as -> by (unfold h, _hashCiphertexts; by rewrite Hthis).
  rewrite Z.eqb_refl. simpl negb. cbv iota.
  destruct (processed _) eqn:Hproc.
  - repeat split; try discriminate.
  - split; [|split; [|split]].
    + repeat case_match; simplify_eq; simpl; discriminate.
    + repeat case_match; simplify_eq; simpl; discriminate.
    + discriminate.
    + intros _ -> v ->. split; reflexivity.
Qed.

End Oracle.

(** ** The cleartext of the callback *)

Section Cleartexts.

Context `{C : FHE.Capability}.

Lemma word_of_bytes_acc (bs : list byte) (acc : Z) :
  fold_left (fun acc b => acc * 256 + Z.of_N (Byte.to_N b)) bs acc =
  acc * 256 ^ Z.of_nat (length bs) + word_of_bytes bs.
Proof.
  unfold word_of_bytes. revert acc.
  induction bs as [|b bs IH]; intros acc; simpl fold_left.
  - simpl. lia.
  - rewrite IH, (IH (0 * 256 + _)).
    rewrite length_cons, Nat2Z.inj_succ, Z.pow_succ_r by lia. ring.
Qed.

Lemma word_of_bytes_range (bs : list byte) :
  0 <= word_of_bytes bs < 256 ^ Z.of_nat (length bs).
Proof.
  induction bs as [|b bs IH].
  - unfold word_of_bytes. simpl. lia.
  - unfold word_of_bytes. simpl fold_left. rewrite word_of_bytes_acc.
    rewrite length_cons, Nat2Z.inj_succ, Z.pow_succ_r by lia.
    pose proof (Byte.to_N_bounded b) as Hb.
    assert (0 <= Z.of_N (Byte.to_N b) <= 255) as Hb' by lia.
    nia.
Qed.

Lemma word_of_bytes_app (hi lo : list byte) :
  word_of_bytes (hi ++ lo) =
  word_of_bytes hi * 256 ^ Z.of_nat (length lo) + word_of_bytes lo.
Proof.
  unfold word_of_bytes at 1. rewrite fold_left_app.
  fold (word_of_bytes hi). apply word_of_bytes_acc.
Qed.

(** [abi.decode(cleartexts, (uint32))] reads the first 32 bytes and nothing
    after them; it yields a value exactly when there are 32 bytes of which
    the first 28 are zero, and the value is then the big-endian number of
    bytes 28 to 31, below [2^32]. *)
Theorem decode_uint32_reads_one_word (data : list byte) (v : Z) :
  decode_uint32 data = Some v <->
  (32 <= length data)%nat /\
  word_of_bytes (take 28 data) = 0 /\
  v = word_of_bytes (take 4 (drop 28 data)).
Proof.
  unfold decode_uint32.
  assert (take 32 data = take 28 data ++ take 4 (drop 28 data)) as Hsplit
    by (symmetry; apply (take_take_drop data 28 4)).
  destruct (length data <? 32)%nat eqn:Hlen.
  - apply Nat.ltb_lt in Hlen. split; [discriminate | lia].
  - apply Nat.ltb_ge in Hlen.
    rewrite Hsplit, word_of_bytes_app.
    assert (length (take 4 (drop 28 data)) = 4%nat) as Hlo
      by (rewrite length_take, length_drop; lia).
    rewrite Hlo.
    pose proof (word_of_bytes_range (take 28 data)) as [Hhi _].
    pose proof (word_of_bytes_range (take 4 (drop 28 data))) as Hrange.
    rewrite Hlo in Hrange.
    change (256 ^ Z.of_nat 4) with 4294967296 in *.
    change (2 ^ 32) with 4294967296.
    destruct (_ <? 4294967296) eqn:Hfit.
    + apply Z.ltb_lt in Hfit. split.
      * intros [= <-]. split; [exact Hlen|]. split; nia.
      * intros (_ & Hzero & ->). rewrite Hzero. reflexivity.
    + apply Z.ltb_ge in Hfit. split; [discriminate|].
      intros (_ & Hzero & _). rewrite Hzero in Hfit. lia.
Qed.

(** A callback that succeeds does one thing to the storage: it sets the
    [processed] flag of its request. It emits one [DecryptionCompleted] event,
    whose amount is below [2^32] and whose winner is the bidder of a bid of
    the request's batch. *)
Theorem callback_success (env : Env) (s : Storage) (rid : Z)
    (ct pf : list byte) :
  outcome (transact (MyCallback rid ct pf) env s) = Success ->
  let r := transact (MyCallback rid ct pf) env s in
  let id := batchId (decryptionContexts_at s rid) in
  post r = set_processed rid s /\
  (forall rid',
     rid' <> rid ->
     decryptionContexts_at (post r) rid' = decryptionContexts_at s rid') /\
  exists v w,
    effects r = [DecryptionCompleted rid id v (bidder w)] /\
    0 <= v < 2 ^ 32 /\
    decode_uint32 ct = Some v /\
    w ∈ batchBids_at s id /\
    FHE.checkSignatures rid ct pf = true /\
    _hashCiphertexts env [FHE.toBytes32 (encryptedBidAmount w)]
      = stateHash (decryptionContexts_at s rid).
Proof.
  cbv zeta. rewrite transact_myCallback. unfold myCallback_result.
  cbn [store log].
  destruct (processed _); [discriminate|].
  destruct (selectWinner _) as [w|] eqn:Hw; [|discriminate].
  destruct (_ =? _) eqn:Hhash; simpl negb; cbv iota; [|discriminate].
  destruct (FHE.checkSignatures rid ct pf); simpl negb; cbv iota;
    [|discriminate].
  destruct (decode_uint32 ct) as [v|] eqn:Hv; [|discriminate].
  intros _. cbn [post effects store log]. split; [reflexivity|]. split.
  - intros rid' Hne.
    unfold set_processed, set_decryptionContext, decryptionContexts_at.
    cbv zeta. cbn [decryptionContexts].
    rewrite lookup_insert_ne by done. reflexivity.
  - exists v, w. split; [reflexivity|].
    split.
    { revert Hv. unfold decode_uint32.
      destruct (length ct <? 32)%nat; [discriminate|].
      destruct (_ <? 2 ^ 32) eqn:Hfit; [|discriminate].
      intros [= <-]. apply Z.ltb_lt in Hfit.
      pose proof (word_of_bytes_range (take 32 ct)) as [Hlow _].
      split; assumption. }
    split; [reflexivity|].
    split; [by apply selectWinner_elem|]. split; [reflexivity|].
    by apply Z.eqb_eq.
Qed.

End Cleartexts.

(** ** Late bids *)

Section LateBids.

Context `{C : FHE.Capability} `{!FHE.Sound C}.

(** One more bid at the end of a batch takes the win exactly when its amount
    is at least the amount of the bid that won before: a later bid wins a
    tie, a lower bid changes nothing. *)
Theorem late_bid_takes_ties (bids : list Bid) (x : Bid) (m : Machine) :
  bids <> [] ->
  exists w,
    (if (length bids =? 1)%nat then array_at bids 0 else scanHighest bids) m
      = (inr w, m) /\
    scanHighest (bids ++ [x]) m =
      (inr (if amount_of w <=? amount_of x then x else w), m).
Proof.
  destruct bids as [|b0 rest]; [done|]. intros _.
  exists (fold_left pick rest b0). split.
  - by apply selection_run.
  - rewrite scanHighest_run. simpl. rewrite fold_left_app. simpl.
    rewrite pick_sound. reflexivity.
Qed.

End LateBids.

(** ** Worked histories on the cleartext capability *)

Section ReachableHistories.

Context `{C : FHE.Capability}.

Lemma reachable_run_calls (cs : list Call) (s : Storage) :
  reachable s -> reachable (run_calls cs s).
Proof.
  revert s. induction cs as [|c cs IH]; intros s Hs; simpl; [exact Hs|].
  apply IH. by apply reachable_step.
Qed.

End ReachableHistories.

Import Cleartext.

Definition call (op : Op) (sender now : Z) : Call :=
  {| call_op := op; call_env := env sender now |}.

(** Deployed by address 1, who is owner and provider. *)
Definition deployed : Storage := constructor (env 1 0).

(** Batch 7 with bids of 10, 30, 20 and 30 from bidders 11 to 14, closed. *)
Definition bidding : list Call :=
  [ call (OpenBatch 7) 1 100;
    call (SubmitBid 7 (enc 10) (enc 5)) 11 100;
    call (SubmitBid 7 (enc 30) (enc 6)) 12 101;
    call (SubmitBid 7 (enc 20) (enc 7)) 13 102;
    call (SubmitBid 7 (enc 30) (enc 8)) 14 103;
    call (CloseBatch 7) 1 110 ].

Definition closed_batch : Storage := run_calls bidding deployed.

(** The provider asks for the result; the oracle answers with request 42. *)
Definition pending : Storage :=
  step closed_batch
    {| call_op := RequestAuctionResultDecryption 7;
       call_env := env_req 1 120 42 |}.

(** The 32-byte word holding [30], and a proof the capability accepts. *)
Definition cleartext_30 : list byte := replicate 31 Byte.x00 ++ [Byte.x1e].
Definition some_proof : list byte := [Byte.x01].

Definition callback_30 : Op := MyCallback 42 cleartext_30 some_proof.

(** The contract paused while request 42 is pending. *)
Definition paused_pending : Storage :=
  step pending (call (SetPaused true) 1 125).

(** Batch 0 open with one bid, and no decryption request made. *)
Definition batch_zero : Storage :=
  run_calls [ call (OpenBatch 0) 1 100;
              call (SubmitBid 0 (enc 10) (enc 5)) 11 100 ] deployed.

(** Bidder 11 has bid at time 100, then the owner sets the cooldown to the
    largest [uint256]. *)
Definition long_cooldown : Storage :=
  run_calls [ call (OpenBatch 7) 1 100;
              call (SubmitBid 7 (enc 10) (enc 5)) 11 100;
              call (SetCooldownSeconds UINT256_MAX) 1 100 ] deployed.

Example scan_example_witness :
  (2 <= length (batchBids_at closed_batch 7))%nat /\
  exists i w,
    scanHighest (batchBids_at closed_batch 7) {| store := closed_batch; log := [] |}
      = (inr w, {| store := closed_batch; log := [] |}) /\
    last_highest (batchBids_at closed_batch 7) i w.
Proof.
  split.
  - vm_compute. lia.
  - apply (proj1 scan_selects_last_highest_bid). vm_compute. lia.
Defined.

Example winner_example :
  effects (transact callback_30 (env 99 130) pending)
    = [DecryptionCompleted 42 7 30 14].
Proof. vm_compute. reflexivity. Qed.

Example callback_once_witness :
  outcome (transact callback_30 (env 99 130) pending) = Success /\
  let s' := post (transact callback_30 (env 99 130) pending) in
  processed (decryptionContexts_at pending 42) = false /\
  processed (decryptionContexts_at s' 42) = true /\
  forall cs : list Call,
    oracle_fresh 42 cs ->
    let s'' := run_calls cs s' in
    processed (decryptionContexts_at s'' 42) = true /\
    forall env' ct' pf',
      outcome (transact (MyCallback 42 ct' pf') env' s'')
        = Reverted ReplayDetected /\
      post (transact (MyCallback 42 ct' pf') env' s'') = s''.
Proof.
  split.
  - vm_compute. reflexivity.
  - apply (callback_runs_at_most_once (env 99 130) pending 42
             cleartext_30 some_proof).
    vm_compute. reflexivity.
Defined.

(** C3 fails as stated: bidder 11 submits to batch 9, which was never
    opened, at time 200. The contract is not paused and the cooldown has
    run out, the call is rejected with [InvalidBatch], and the bidder's
    [lastSubmissionTime] is still 0, not 200. *)
Example rejected_submission_counterexample :
  let e := env 11 200 in
  let r := transact (SubmitBid 9 (enc 10) (enc 5)) e deployed in
  reachable deployed /\
  paused deployed = false /\
  lastSubmissionTime_at deployed (msg_sender e) + cooldownSeconds deployed
    <= block_timestamp e /\
  outcome r = Reverted InvalidBatch /\
  lastSubmissionTime_at (post r) (msg_sender e) = 0 /\
  lastSubmissionTime_at (post r) (msg_sender e) <> block_timestamp e.
Proof.
  cbv zeta. split; [apply reachable_deployed|].
  vm_compute. repeat split; try reflexivity; discriminate.
Qed.

Example rejected_submission_witness :
  outcome (transact (SubmitBid 9 (enc 10) (enc 5)) (env 11 200) deployed)
    = Reverted InvalidBatch /\
  lastSubmissionTime_at
    (store (snd (submitBid (env 11 200) 9 (enc 10) (enc 5)
                   {| store := deployed; log := [] |}))) 11 = 200 /\
  lastSubmissionTime_at
    (post (transact (SubmitBid 9 (enc 10) (enc 5)) (env 11 200) deployed)) 11
    = lastSubmissionTime_at deployed 11.
Proof.
  split; [vm_compute; reflexivity|].
  destruct (rejected_submission_restores_timestamp (env 11 200) deployed 9
              (enc 10) (enc 5)) as (_ & _ & _ & Hin & _ & Hout).
  - vm_compute. reflexivity.
  - split; [exact Hin | exact Hout].
Defined.

Example reverted_call_witness :
  outcome (transact (SetPaused true) (env 2 50) deployed) = Reverted NotOwner /\
  post (transact (SetPaused true) (env 2 50) deployed) = deployed /\
  effects (transact (SetPaused true) (env 2 50) deployed) = [].
Proof.
  split; [vm_compute; reflexivity|].
  apply (reverted_call_changes_nothing (SetPaused true) (env 2 50) deployed
           NotOwner).
  vm_compute. reflexivity.
Defined.

Example batch_life_cycle_witness :
  reachable closed_batch /\
  phase closed_batch 7 = Some Closed /\
  outcome (transact (OpenBatch 7) (env 1 130) closed_batch)
    = Reverted InvalidBatch.
Proof.
  assert (reachable closed_batch) as Hreach
    by apply reachable_run_calls, reachable_deployed.
  split; [exact Hreach|]. split; [vm_compute; reflexivity|].
  destruct (batch_life_cycle closed_batch Hreach) as (_ & _ & Hopen).
  apply (Hopen (env 1 130) 7).
  - right. vm_compute. reflexivity.
  - vm_compute. reflexivity.
  - vm_compute. reflexivity.
Defined.

Example hash_mismatch_witness :
  processed (decryptionContexts_at batch_zero 5) = false /\
  selectWinner
    (batchBids_at batch_zero (batchId (decryptionContexts_at batch_zero 5)))
    = Some (bid 10 5 11) /\
  _hashCiphertexts (env 99 130)
    [FHE.toBytes32 (encryptedBidAmount (bid 10 5 11))]
    <> stateHash (decryptionContexts_at batch_zero 5) /\
  outcome (transact (MyCallback 5 cleartext_30 some_proof) (env 99 130)
             batch_zero) = Reverted InvalidState /\
  processed
    (decryptionContexts_at
       (post (transact (MyCallback 5 cleartext_30 some_proof) (env 99 130)
                batch_zero)) 5) = false.
Proof.
  assert (_hashCiphertexts (env 99 130)
            [FHE.toBytes32 (encryptedBidAmount (bid 10 5 11))]
          <> stateHash (decryptionContexts_at batch_zero 5)) as Hhash
    by (vm_compute; discriminate).
  split; [vm_compute; reflexivity|].
  split; [vm_compute; reflexivity|].
  split; [exact Hhash|].
  apply (callback_rejects_hash_mismatch (env 99 130) batch_zero 5
           cleartext_30 some_proof (bid 10 5 11)).
  - vm_compute. reflexivity.
  - vm_compute. reflexivity.
  - exact Hhash.
Defined.

(** C7 fails as stated: bidder 11 bid at time 100 and the cooldown is now
    [2^256 - 1]. A second bid at time 101 comes strictly before
    [100 + cooldownSeconds] on a contract that is not paused, yet the call
    does not fail with [CooldownActive]: the sum does not fit in a [uint256]
    and the call aborts with the overflow panic. *)
Example cooldown_overflow_counterexample :
  let e := env 11 101 in
  let r := transact (SubmitBid 7 (enc 30) (enc 6)) e long_cooldown in
  reachable long_cooldown /\
  paused long_cooldown = false /\
  lastSubmissionTime_at long_cooldown (msg_sender e) = 100 /\
  cooldownSeconds long_cooldown = UINT256_MAX /\
  block_timestamp e
    < lastSubmissionTime_at long_cooldown (msg_sender e)
      + cooldownSeconds long_cooldown /\
  outcome r = Reverted (Panic PANIC_OVERFLOW) /\
  outcome r <> Reverted CooldownActive.
Proof.
  cbv zeta. split; [apply reachable_run_calls, reachable_deployed|].
  vm_compute. repeat split; try reflexivity; discriminate.
Qed.

Example rate_limit_witness :
  paused pending = false /\
  outcome (transact (SubmitBid 7 (enc 30) (enc 6)) (env 14 112) pending)
    = Reverted CooldownActive /\
  outcome (transact (SubmitBid 7 (enc 30) (enc 6)) (env 14 113) pending)
    <> Reverted CooldownActive /\
  outcome (transact (RequestAuctionResultDecryption 7) (env 1 129) pending)
    = Reverted CooldownActive /\
  outcome (transact (RequestAuctionResultDecryption 7) (env 1 130) pending)
    <> Reverted CooldownActive.
Proof.
  assert (paused pending = false) as Hp by (vm_compute; reflexivity).
  assert (lastSubmissionTime_at pending 14 + cooldownSeconds pending = 113)
    as HreadyS by (vm_compute; reflexivity).
  assert (lastDecryptionRequestTime_at pending 1 + cooldownSeconds pending
          = 130) as HreadyD by (vm_compute; reflexivity).
  assert (113 <= UINT256_MAX) as H113 by (vm_compute; discriminate).
  assert (130 <= UINT256_MAX) as H130 by (vm_compute; discriminate).
  split; [exact Hp|].
  pose proof (rate_limit_boundary (env 14 112) pending Hp) as (Hs112 & _).
  pose proof (rate_limit_boundary (env 14 113) pending Hp) as (Hs113 & _).
  pose proof (rate_limit_boundary (env 1 129) pending Hp) as (_ & Hd129 & _).
  pose proof (rate_limit_boundary (env 1 130) pending Hp) as (_ & Hd130 & _).
  cbn [msg_sender block_timestamp env] in Hs112, Hs113, Hd129, Hd130.
  rewrite HreadyS in Hs112, Hs113. rewrite HreadyD in Hd129, Hd130.
  split; [exact (proj1 (Hs112 H113) ltac:(lia) 7 (enc 30) (enc 6))|].
  split; [exact (proj2 (proj2 (Hs113 H113) ltac:(lia)) 7 (enc 30) (enc 6))|].
  split; [exact (proj1 (Hd129 H130) ltac:(lia) 7)|].
  exact (proj2 (proj2 (Hd130 H130) ltac:(lia)) 7).
Defined.

Example request_witness :
  outcome (transact (RequestAuctionResultDecryption 7) (env_req 1 120 42)
             closed_batch) = Success /\
  effects (transact (RequestAuctionResultDecryption 7) (env_req 1 120 42)
             closed_batch)
    = [RequestDecryption [30] myCallback_selector; DecryptionRequested 42 7] /\
  exists w : Bid,
    w ∈ batchBids_at closed_batch 7 /\
    effects (transact (RequestAuctionResultDecryption 7) (env_req 1 120 42)
               closed_batch)
      = [RequestDecryption [FHE.toBytes32 (encryptedBidAmount w)]
           myCallback_selector;
         DecryptionRequested 42 7].
Proof.
  assert (outcome (transact (RequestAuctionResultDecryption 7)
                     (env_req 1 120 42) closed_batch) = Success) as Hok
    by (vm_compute; reflexivity).
  split; [exact Hok|]. split; [vm_compute; reflexivity|].
  destruct (request_decrypts_only_the_winner (env_req 1 120 42) closed_batch 7)
    as (_ & Hsucc).
  destruct (Hsucc Hok) as (_ & _ & w & Hin & _ & _ & Heff & _).
  exists w. split; [exact Hin | exact Heff].
Defined.

Example callback_guard_witness :
  outcome (transact (MyCallback 42 cleartext_30 []) (env 99 130) paused_pending)
    = Reverted InvalidProof /\
  InvalidProof <> Paused /\
  outcome (transact callback_30 (env 99 130) paused_pending)
    = outcome (transact callback_30 (env 99 130) pending).
Proof.
  split; [vm_compute; reflexivity|].
  destruct (callback_has_no_guard (env 99 130) paused_pending 42
              cleartext_30 []) as (Herr & _).
  destruct (Herr InvalidProof) as (Hne & _); [vm_compute; reflexivity|].
  split; [exact Hne|].
  destruct (callback_has_no_guard (env 99 130) pending 42
              cleartext_30 some_proof) as (_ & Hpause & _).
  exact (Hpause true).
Defined.

Example paused_callback_example :
  paused paused_pending = true /\
  transact callback_30 (env 99 130) paused_pending
    = {| outcome := Success;
         post := set_processed 42 paused_pending;
         effects := [DecryptionCompleted 42 7 30 14] |}.
Proof. split; vm_compute; reflexivity. Qed.

Example missing_context_witness :
  decryptionContexts deployed !! 5 = None /\
  batchBids_at deployed 0 = [] /\
  outcome (transact (MyCallback 5 cleartext_30 some_proof) (env 99 130)
             deployed) = Reverted (Panic PANIC_INDEX).
Proof.
  assert (decryptionContexts deployed !! 5 = None) as Hctx
    by (vm_compute; reflexivity).
  assert (batchBids_at deployed 0 = []) as Hbids by (vm_compute; reflexivity).
  split; [exact Hctx|]. split; [exact Hbids|].
  destruct (callback_without_context_panics (env 99 130) deployed 5
              cleartext_30 some_proof Hctx Hbids) as (_ & _ & _ & Hout & _).
  exact Hout.
Defined.

(** The freshness of request identifiers is the oracle's part of the replay
    protection: were the oracle to hand out 42 again, the request would
    overwrite the processed context with an unprocessed one. *)
Example reissued_identifier_example :
  let done := post (transact callback_30 (env 99 130) pending) in
  let again :=
    {| call_op := RequestAuctionResultDecryption 7;
       call_env := env_req 1 140 42 |} in
  processed (decryptionContexts_at done 42) = true /\
  issues 42 again = true /\
  processed (decryptionContexts_at (step done again) 42) = false.
Proof. vm_compute. repeat split; reflexivity. Qed.

(** ** More worked histories *)

(** Batch 7 opened and still empty. *)
Definition open_batch : Storage := step deployed (call (OpenBatch 7) 1 100).

Example owner_entry_points_witness :
  owner_update (SetPaused true) deployed
    = Some (set_paused true deployed, PausedSet true) /\
  transact (SetPaused true) (env 1 50) deployed =
    {| outcome := Success; post := set_paused true deployed;
       effects := [PausedSet true] |}.
Proof.
  split; [reflexivity|].
  exact (proj1 (owner_entry_points (SetPaused true) (env 1 50) deployed
                  _ _ eq_refl) eq_refl).
Defined.

Example configuration_witness :
  cooldownSeconds (post (transact (SetCooldownSeconds 60) (env 1 50) deployed))
    <> cooldownSeconds deployed /\
  msg_sender (env 1 50) = owner deployed.
Proof.
  assert (cooldownSeconds
            (post (transact (SetCooldownSeconds 60) (env 1 50) deployed))
          <> cooldownSeconds deployed) as Hchange
    by (vm_compute; discriminate).
  split; [exact Hchange|].
  exact (proj1 (configuration_changes_need_owner (SetCooldownSeconds 60)
                  (env 1 50) deployed
                  (or_intror (or_intror (or_intror Hchange))))).
Defined.

Example batch_change_witness :
  batchActive (post (transact (OpenBatch 7) (env 1 100) deployed))
    <> batchActive deployed /\
  providers_at deployed (msg_sender (env 1 100)) = true /\
  paused deployed = false.
Proof.
  assert (batchActive (post (transact (OpenBatch 7) (env 1 100) deployed))
          <> batchActive deployed) as Hchange.
  { intros Heq. apply (f_equal (fun m => m !! 7)) in Heq.
    vm_compute in Heq. discriminate. }
  split; [exact Hchange|].
  destruct (batch_changes_need_provider (OpenBatch 7) (env 1 100) deployed
              (or_introl Hchange)) as (Hprov & Hpaused & _).
  split; [exact Hprov | exact Hpaused].
Defined.

Example ownership_handover_witness :
  msg_sender (env 1 50) = owner deployed /\
  2 <> owner deployed /\
  post (transact (TransferOwnership 2) (env 1 50) deployed)
    = set_owner 2 deployed /\
  providers_at (post (transact (TransferOwnership 2) (env 1 50) deployed)) 2
    = providers_at deployed 2.
Proof.
  assert (2 <> owner deployed) as Hnew by (vm_compute; discriminate).
  split; [reflexivity|]. split; [exact Hnew|].
  destruct (ownership_handover (env 1 50) deployed 2 eq_refl Hnew)
    as (Hpost & Hprov & _).
  split; [exact Hpost | exact (Hprov 2)].
Defined.

Example provider_added_witness :
  msg_sender (env 1 50) = owner deployed /\
  providers_at (post (transact (AddProvider 5) (env 1 50) deployed)) 5 = true.
Proof.
  split; [reflexivity|].
  exact (proj1 (provider_added (env 1 50) deployed 5 eq_refl)).
Defined.

Example provider_removed_witness :
  msg_sender (env 1 50) = owner deployed /\
  outcome
    (transact (OpenBatch 7) (env 1 60)
       (post (transact (RemoveProvider 1) (env 1 50) deployed)))
    = Reverted NotProvider.
Proof.
  split; [reflexivity|].
  destruct (provider_removed (env 1 50) deployed 1 eq_refl) as (_ & _ & Hout).
  exact (proj1 (Hout (env 1 60) 7 eq_refl)).
Defined.

Example paused_contract_witness :
  paused paused_pending = true /\
  outcome (transact (SubmitBid 7 (enc 40) (enc 9)) (env 15 140) paused_pending)
    = Reverted Paused.
Proof.
  assert (paused paused_pending = true) as Hp by (vm_compute; reflexivity).
  split; [exact Hp|].
  exact (proj1 (paused_contract_rejects (env 15 140) paused_pending Hp)
           7 (enc 40) (enc 9)).
Defined.

Example pause_then_resume_witness :
  paused pending = false /\
  transact (SetPaused false) (env 1 126)
    (post (transact (SetPaused true) (env 1 125) pending)) =
    {| outcome := Success; post := pending; effects := [PausedSet false] |}.
Proof.
  assert (paused pending = false) as Hp by (vm_compute; reflexivity).
  assert (msg_sender (env 1 125) = owner pending) as H1
    by (vm_compute; reflexivity).
  assert (msg_sender (env 1 126) = owner pending) as H2
    by (vm_compute; reflexivity).
  split; [exact Hp|].
  exact (proj2 (pause_then_resume (env 1 125) (env 1 126) pending Hp H1 H2)).
Defined.

Example closed_batch_witness :
  phase closed_batch 7 = Some Closed /\
  batchBids_at
    (run_calls [ call (OpenBatch 7) 1 130;
                 call (SubmitBid 7 (enc 40) (enc 9)) 15 131 ] closed_batch) 7
    = batchBids_at closed_batch 7.
Proof.
  assert (phase closed_batch 7 = Some Closed) as Hph
    by (vm_compute; reflexivity).
  split; [exact Hph|].
  exact (proj1 (proj2 (closed_batch_is_final closed_batch 7
                         [ call (OpenBatch 7) 1 130;
                           call (SubmitBid 7 (enc 40) (enc 9)) 15 131 ]
                         Hph))).
Defined.

Example closeBatch_witness :
  batchActive_at closed_batch 7 = false /\
  outcome (transact (CloseBatch 7) (env 1 130) closed_batch)
    = Reverted InvalidBatch.
Proof.
  assert (batchActive_at closed_batch 7 = false) as Hact
    by (vm_compute; reflexivity).
  assert (providers_at closed_batch (msg_sender (env 1 130)) = true) as Hprov
    by (vm_compute; reflexivity).
  assert (paused closed_batch = false) as Hp by (vm_compute; reflexivity).
  split; [exact Hact|].
  exact (proj2 (proj2 (closeBatch_outcomes (env 1 130) closed_batch 7))
           Hact Hprov Hp).
Defined.

Example stored_bids_witness :
  reachable closed_batch /\
  batchBids_at closed_batch 7 !! 3%nat = Some (bid 30 8 14) /\
  FHE.isInitialized (encryptedBidAmount (bid 30 8 14)) = true.
Proof.
  assert (reachable closed_batch) as Hreach
    by apply reachable_run_calls, reachable_deployed.
  assert (batchBids_at closed_batch 7 !! 3%nat = Some (bid 30 8 14)) as Hbid
    by (vm_compute; reflexivity).
  split; [exact Hreach|]. split; [exact Hbid|].
  exact (proj1 (stored_bids_are_initialized closed_batch Hreach 7 (bid 30 8 14)
                  (list_elem_of_lookup_2 _ _ _ Hbid))).
Defined.

Example opened_batches_witness :
  reachable closed_batch /\
  batchBids_at closed_batch 7 <> [] /\
  (phase closed_batch 7 = Some Active \/ phase closed_batch 7 = Some Closed).
Proof.
  assert (reachable closed_batch) as Hreach
    by apply reachable_run_calls, reachable_deployed.
  assert (batchBids_at closed_batch 7 <> []) as Hbids
    by (intros Heq; vm_compute in Heq; discriminate).
  split; [exact Hreach|]. split; [exact Hbids|].
  exact (bids_only_in_opened_batches closed_batch Hreach 7 Hbids).
Defined.

Example accepted_bid_witness :
  outcome (transact (SubmitBid 7 (enc 10) (enc 5)) (env 11 100) open_batch)
    = Success /\
  outcome
    (transact (SubmitBid 7 (enc 12) (enc 5)) (env 11 109)
       (post (transact (SubmitBid 7 (enc 10) (enc 5)) (env 11 100) open_batch)))
    = Reverted CooldownActive.
Proof.
  assert (outcome (transact (SubmitBid 7 (enc 10) (enc 5)) (env 11 100)
                     open_batch) = Success) as Hok
    by (vm_compute; reflexivity).
  assert (cooldownSeconds open_batch = 10) as Hcd by (vm_compute; reflexivity).
  split; [exact Hok|].
  destruct (accepted_bid_starts_cooldown (env 11 100) open_batch 7
              (enc 10) (enc 5) Hok) as (_ & _ & Hnext).
  apply (Hnext (env 11 109) 7 (enc 12) (enc 5) eq_refl);
    rewrite Hcd; vm_compute; [discriminate | reflexivity].
Defined.

Example accepted_request_witness :
  reachable closed_batch /\
  outcome (transact (RequestAuctionResultDecryption 7) (env_req 1 120 42)
             closed_batch) = Success /\
  outcome (transact callback_30 (env 99 130) pending) = Success /\
  effects (transact callback_30 (env 99 130) pending)
    = [DecryptionCompleted 42 7 30 14].
Proof.
  assert (reachable closed_batch) as Hreach
    by apply reachable_run_calls, reachable_deployed.
  assert (outcome (transact (RequestAuctionResultDecryption 7)
                     (env_req 1 120 42) closed_batch) = Success) as Hok
    by (vm_compute; reflexivity).
  assert (processed (decryptionContexts_at pending 42) = false) as Hproc
    by (vm_compute; reflexivity).
  assert (FHE.checkSignatures 42 cleartext_30 some_proof = true) as Hsig
    by (vm_compute; reflexivity).
  assert (decode_uint32 cleartext_30 = Some 30) as Hdec
    by (vm_compute; reflexivity).
  split; [exact Hreach|]. split; [exact Hok|].
  destruct (accepted_request_can_complete (env_req 1 120 42) closed_batch 7
              Hreach Hok) as (w & _ & _ & Hcb).
  destruct (Hcb [] (env 99 130) cleartext_30 some_proof
              (List.Forall_nil _) eq_refl) as (_ & _ & _ & Hsucc).
  destruct (Hsucc Hproc Hsig 30 Hdec) as [Hout _].
  split; [exact Hout|]. vm_compute. reflexivity.
Defined.

Example decode_witness :
  decode_uint32 cleartext_30 = Some 30 /\
  (32 <= length cleartext_30)%nat /\
  word_of_bytes (take 28 cleartext_30) = 0.
Proof.
  assert (decode_uint32 cleartext_30 = Some 30) as Hdec
    by (vm_compute; reflexivity).
  split; [exact Hdec|].
  destruct (proj1 (decode_uint32_reads_one_word cleartext_30 30) Hdec)
    as (Hlen & Hzero & _).
  split; [exact Hlen | exact Hzero].
Defined.

Example callback_success_witness :
  outcome (transact callback_30 (env 99 130) pending) = Success /\
  post (transact callback_30 (env 99 130) pending) = set_processed 42 pending.
Proof.
  assert (outcome (transact callback_30 (env 99 130) pending) = Success)
    as Hok by (vm_compute; reflexivity).
  split; [exact Hok|].
  exact (proj1 (callback_success (env 99 130) pending 42 cleartext_30
                  some_proof Hok)).
Defined.

Example late_bid_witness :
  [bid 10 5 11; bid 30 6 12] <> [] /\
  scanHighest ([bid 10 5 11; bid 30 6 12] ++ [bid 30 8 14])
    {| store := deployed; log := [] |}
    = (inr (bid 30 8 14), {| store := deployed; log := [] |}).
Proof.
  assert ([bid 10 5 11; bid 30 6 12] <> []) as Hne by discriminate.
  split; [exact Hne|].
  destruct (late_bid_takes_ties [bid 10 5 11; bid 30 6 12] (bid 30 8 14)
              {| store := deployed; log := [] |} Hne) as (w & Hw & Hscan).
  rewrite Hscan. vm_compute in Hw. injection Hw as <-. reflexivity.
Defined.
